(** * Scrape orchestrator and lookup service of [starter_server.py]

    A shallow embedding of the two MCP tools of the server,
    [scrape_websites] and [extract_scraped_info], together with the
    properties of the metadata store they share.

    Python values are embedded as a small JSON-like datatype, Python
    dictionaries as association lists in insertion order, the file system
    and the log of external effects as an explicit world that is threaded
    through a state-and-exception monad.  Every external collaborator
    (Firecrawl, the process environment, [urlparse], the clock, the
    operating system's [open]) is a field of an environment record.

    Conventions of the model:
    - the metadata file is kept as what [json.load] makes of it, and
      [json.dump] of a value is read back as that value;
    - a content file is known by the file that its path resolves to, so
      that two spellings of one path name one file; a file holds text,
      every text can be encoded and written once its file is open, and a
      file that cannot be opened or decoded counts as absent;
    - the metadata file is kept apart from the content files, whose paths
      never name it;
    - [os.makedirs] succeeds, and logging has no effect besides the
      evaluation of its arguments ([os.listdir] at line 159);
    - [websites] is a list of pairs in the iteration order of the
      dictionary; theorems that need its keys to be distinct say so. *)

From Stdlib Require Import ZArith Ascii String.
From stdpp Require Import gmap strings list pretty.

Local Open Scope Z_scope.

(** ** Python values *)

(** The values that [model_dump()] and [json.load] produce.  Floating point
    numbers are left out. *)
#[local] Unset Elimination Schemes.
Inductive pyval : Type :=
| PyNone
| PyBool (b : bool)
| PyInt (z : Z)
| PyStr (s : string)
| PyList (l : list pyval)
| PyDict (d : list (string * pyval)).
#[local] Set Elimination Schemes.

(** A Python [dict] with string keys, in insertion order. *)
Abbreviation pydict := (list (string * pyval)).

(** [bool(v)]: the truth value Python gives to [v] in [if v:]. *)
Definition py_truthy (v : pyval) : bool :=
  match v with
  | PyNone => false
  | PyBool b => b
  | PyInt z => negb (z =? 0)
  | PyStr s => negb (bool_decide (s = ""%string))
  | PyList l => match l with [] => false | _ => true end
  | PyDict d => match d with [] => false | _ => true end
  end.

(** [type(v).__name__] *)
Definition py_type_name (v : pyval) : string :=
  match v with
  | PyNone => "NoneType"
  | PyBool _ => "bool"
  | PyInt _ => "int"
  | PyStr _ => "str"
  | PyList _ => "list"
  | PyDict _ => "dict"
  end.

(** [s == v] for a [str] [s]: only an equal string compares equal. *)
Definition py_eq_str (s : string) (v : pyval) : bool :=
  match v with
  | PyStr s' => bool_decide (s = s')
  | _ => false
  end.

(** [v != n] for an [int] [n]; [True] and [False] compare as 1 and 0. *)
Definition py_ne_int (v : pyval) (n : Z) : bool :=
  match v with
  | PyInt z => negb (z =? n)
  | PyBool b => negb ((if b then 1 else 0) =? n)
  | _ => true
  end.

(** ** Dictionaries in insertion order *)

Section Dict.
Context {V : Type}.

(** [d.get(k)] *)
Fixpoint dict_get (k : string) (d : list (string * V)) : option V :=
  match d with
  | [] => None
  | (k', v) :: d' => if decide (k = k') then Some v else dict_get k d'
  end.

(** [d[k] = v]: an existing key keeps its position, a new key goes last. *)
Fixpoint dict_set (k : string) (v : V) (d : list (string * V))
  : list (string * V) :=
  match d with
  | [] => [(k, v)]
  | (k', v') :: d' =>
      if decide (k = k') then (k, v) :: d' else (k', v') :: dict_set k v d'
  end.

Definition dict_keys (d : list (string * V)) : list string := d.*1.
End Dict.

(** ** Exceptions *)

Inductive exn_class : Type :=
| ValueError
| TypeError
| AttributeError
| FileNotFoundError
| OtherError (name : string).

(** An exception object; [exn_msg] is what [str(e)] gives. *)
Record exn : Type := Exn { exn_cls : exn_class; exn_msg : string }.

Inductive exc (A : Type) : Type :=
| Ok (a : A)
| Raise (e : exn).
Arguments Ok {A} a.
Arguments Raise {A} e.

#[global] Instance exc_ret : MRet exc := fun A a => Ok a.
#[global] Instance exc_bind : MBind exc := fun A B f c =>
  match c with
  | Ok a => f a
  | Raise e => Raise e
  end.

#[global] Instance exc_fmap : FMap exc := fun A B f c =>
  match c with
  | Ok a => Ok (f a)
  | Raise e => Raise e
  end.

Definition is_ok {A} (c : exc A) : bool :=
  match c with Ok _ => true | Raise _ => false end.

Definition attribute_error (v : pyval) (attr : string) : exn :=
  Exn AttributeError
      ("'" +:+ py_type_name v +:+ "' object has no attribute '" +:+ attr +:+ "'").

(** [v.get(k, dflt)] *)
Definition py_get (v : pyval) (k : string) (dflt : pyval) : exc pyval :=
  match v with
  | PyDict d => Ok (default dflt (dict_get k d))
  | _ => Raise (attribute_error v "get")
  end.

(** [v.items()] *)
Definition py_items (v : pyval) : exc pydict :=
  match v with
  | PyDict d => Ok d
  | _ => Raise (attribute_error v "items")
  end.

(** [v.copy()]: dictionaries and lists have it. *)
Definition py_copy (v : pyval) : exc pyval :=
  match v with
  | PyDict _ | PyList _ => Ok v
  | _ => Raise (attribute_error v "copy")
  end.

(** [v[k] = x] for a string key [k]. *)
Definition py_setitem (v : pyval) (k : string) (x : pyval) : exc pyval :=
  match v with
  | PyDict d => Ok (PyDict (dict_set k x d))
  | PyList _ =>
      Raise (Exn TypeError "list indices must be integers or slices, not str")
  | _ =>
      Raise (Exn TypeError
               ("'" +:+ py_type_name v +:+ "' object does not support item assignment"))
  end.

(** ** Paths *)

Definition SCRAPE_DIR : string := "scraped_content".

Definition starts_with_slash (s : string) : bool :=
  match s with
  | String c _ => bool_decide (c = "/"%char)
  | EmptyString => false
  end.

Fixpoint ends_with_slash (s : string) : bool :=
  match s with
  | EmptyString => false
  | String c EmptyString => bool_decide (c = "/"%char)
  | String _ s' => ends_with_slash s'
  end.

(** [os.path.join(a, b)] on a POSIX system. *)
Definition os_path_join (a b : string) : string :=
  if starts_with_slash b then b
  else if bool_decide (a = ""%string) || ends_with_slash a then a +:+ b
  else a +:+ "/" +:+ b.

(** [path = os.path.join(SCRAPE_DIR)] *)
Definition scrape_path : string := SCRAPE_DIR.

Definition metadata_file : string :=
  os_path_join scrape_path "scraped_metadata.json".

(** [f"{provider_name}_{fmt}.txt"] *)
Definition content_filename (provider_name fmt : string) : string :=
  provider_name +:+ "_" +:+ fmt +:+ ".txt".

(** ** [posixpath.normpath]

    The lexical normalisation of a path, after CPython's [posixpath]: the
    resolution of paths in a directory tree without symbolic links. *)
Module Posixpath.

(** [path.split('/')] *)
Fixpoint split (path : string) : list string :=
  match path with
  | EmptyString => [EmptyString]
  | String c path' =>
      if bool_decide (c = "/"%char) then EmptyString :: split path'
      else match split path' with
           | comp :: comps => String c comp :: comps
           | [] => [String c EmptyString]
           end
  end.

(** The loop over the components; [new_comps] is kept with its last
    element first. *)
Fixpoint collapse (initial_slashes : bool) (comps new_comps : list string)
  : list string :=
  match comps with
  | [] => rev new_comps
  | comp :: comps' =>
      if bool_decide (comp = ""%string) || bool_decide (comp = "."%string)
      then collapse initial_slashes comps' new_comps
      else if negb (bool_decide (comp = ".."%string))
              || (negb initial_slashes
                  && match new_comps with [] => true | _ => false end)
              || match new_comps with
                 | last :: _ => bool_decide (last = ".."%string)
                 | [] => false
                 end
      then collapse initial_slashes comps' (comp :: new_comps)
      else collapse initial_slashes comps' (tail new_comps)
  end.

(** One or two initial slashes are kept, three or more are one. *)
Definition initial_slashes (path : string) : nat :=
  match path with
  | String c1 (String c2 (String c3 _)) =>
      if negb (bool_decide (c1 = "/"%char)) then 0
      else if bool_decide (c2 = "/"%char) && negb (bool_decide (c3 = "/"%char))
      then 2 else 1
  | String c1 (String c2 EmptyString) =>
      if negb (bool_decide (c1 = "/"%char)) then 0
      else if bool_decide (c2 = "/"%char) then 2 else 1
  | String c1 EmptyString => if bool_decide (c1 = "/"%char) then 1 else 0
  | EmptyString => 0
  end%nat.

Definition normpath (path : string) : string :=
  let n := initial_slashes path in
  let comps := collapse (negb (n =? 0)%nat) (split path) [] in
  let path' :=
    (match n with 0 => "" | 1 => "/" | _ => "//" end%nat)%string
      +:+ String.concat "/" comps in
  if bool_decide (path' = ""%string) then "."%string else path'.

End Posixpath.

(** ** The content files *)

(** The files outside the metadata file, as the operating system has
    them: [resolve] gives the file that a path names (what
    [os.path.realpath] returns), [entries] the text of each file. *)
Record filesystem : Type := FS {
  resolve : string -> string;
  entries : gmap string string
}.

(** The text of the file that [path] names. *)
#[global] Instance filesystem_lookup : Lookup string string filesystem :=
  fun path fs => entries fs !! resolve fs path.

(** The file that [path] names gets the text [text]. *)
#[global] Instance filesystem_insert : Insert string string filesystem :=
  fun path text fs =>
    FS (resolve fs) (<[resolve fs path := text]> (entries fs)).

#[global] Instance filesystem_delete : Delete string filesystem :=
  fun path fs => FS (resolve fs) (delete (resolve fs path) (entries fs)).

(** No files, in a directory tree without symbolic links. *)
#[global] Instance filesystem_empty : Empty filesystem :=
  FS Posixpath.normpath ∅.

#[global] Instance filesystem_singleton : SingletonM string string filesystem :=
  fun path text => <[path := text]> (∅ : filesystem).

(** What reading in text mode makes of the line endings of a file
    ([newline=None]): [\r\n] and a lone [\r] are read as [\n]. *)
Fixpoint universal_newlines (s : string) : string :=
  match s with
  | EmptyString => EmptyString
  | String c s' =>
      if bool_decide (c = "013"%char) then
        String "010"%char
          match s' with
          | String c' s'' =>
              if bool_decide (c' = "010"%char) then universal_newlines s''
              else universal_newlines s'
          | EmptyString => EmptyString
          end
      else String c (universal_newlines s')
  end.

(** ** The environment: external collaborators

    Everything the two tools obtain from outside the program.  The oracles
    that may answer differently from one call to the next take the logical
    time of the call as their first argument. *)
Record Env : Type := {
  (** [os.getenv(name)] *)
  getenv : string -> option string;
  (** [FirecrawlApp(api_key=k)]: the exception the constructor raises, if
      any *)
  firecrawl_new : string -> option exn;
  (** [app.scrape(url=u, formats=fs).model_dump()] at time [t], for the
      [app] built with the key [k]: the dumped response, or the exception
      the call raised *)
  firecrawl_scrape : nat -> string -> string -> list string -> exc pydict;
  (** [urlparse(url).netloc], or the [ValueError] that [urlparse] raised *)
  urlparse_netloc : string -> exc string;
  (** [datetime.utcnow().isoformat()] at time [t] *)
  utcnow_isoformat : nat -> string;
  (** [open(path, 'w', encoding='utf-8')]: the exception it raises, if any *)
  open_for_write : string -> option exn;
  (** [str(v)] of a value that is not a string, as an f-string formats it *)
  py_repr : pyval -> string;
  (** [json.dumps(v, indent=n)] *)
  json_dumps : nat -> pyval -> string
}.

(** ** The world: file system, clock and effect log *)

(** The metadata file as [json.load] sees it. *)
Inductive store_file : Type :=
| StoreAbsent
| StoreUnreadable (e : exn)   (* [open] or [json.load] raises [e] *)
| StoreParsed (v : pyval).    (* [json.load] returns [v] *)

(** The directory [SCRAPE_DIR] and the metadata file inside it. *)
Inductive dir_state : Type :=
| DirAbsent
| DirPresent (meta : store_file).

Inductive event : Type :=
| EvGetenv (name : string)
| EvMakedirs (path : string)
| EvListdir (path : string)
| EvLoadStore (path : string)
| EvScrape (api_key url : string) (formats : list string)
| EvWriteFile (path content : string)
| EvReadFile (path : string)
| EvSaveStore (path : string) (v : pyval).

Record World : Type := mkWorld {
  scrape_dir : dir_state;
  (** the content files *)
  files : filesystem;
  (** logical time: the number of oracle consultations so far *)
  tick : nat;
  (** the external effects so far, oldest first *)
  log : list event
}.

Definition stored (w : World) : store_file :=
  match scrape_dir w with
  | DirAbsent => StoreAbsent
  | DirPresent m => m
  end.

(** ** A state-and-exception monad

    An exception leaves the world as it was when the exception was raised:
    files already written stay written. *)
Definition M (A : Type) : Type := World -> World * exc A.

Definition retM {A} (a : A) : M A := fun w => (w, Ok a).

Definition raiseM {A} (e : exn) : M A := fun w => (w, Raise e).

Definition bindM {A B} (c : M A) (k : A -> M B) : M B := fun w =>
  match c w with
  | (w', Ok a) => k a w'
  | (w', Raise e) => (w', Raise e)
  end.

(** [try: c  except Exception as e: h e] *)
Definition try_except {A} (c : M A) (h : exn -> M A) : M A := fun w =>
  match c w with
  | (w', Ok a) => (w', Ok a)
  | (w', Raise e) => h e w'
  end.

Definition liftM {A} (c : exc A) : M A := fun w => (w, c).

Definition emit (ev : event) : M unit := fun w =>
  (mkWorld (scrape_dir w) (files w) (tick w) (log w ++ [ev]), Ok tt).

Definition next_tick : M nat := fun w =>
  (mkWorld (scrape_dir w) (files w) (S (tick w)) (log w), Ok (tick w)).

Notation "x <~ c ;; k" := (bindM c (fun x => k))
  (at level 100, c at next level, right associativity).
Notation "c ;;; k" := (bindM c (fun _ => k))
  (at level 100, right associativity).

(** ** The scrape tool *)

Definition default_formats : list string := ["markdown"; "html"]%string.

Definition missing_api_key : exn :=
  Exn ValueError
      "API key must be provided or set as FIRECRAWL_API_KEY environment variable".

(** The two variants of a record of the metadata store. *)
Definition success_record (provider_name url domain scraped_at : string)
    (formats : list string) (content_files : pydict)
    (title description : pyval) : pyval :=
  PyDict [ ("provider_name", PyStr provider_name);
           ("url", PyStr url);
           ("domain", PyStr domain);
           ("scraped_at", PyStr scraped_at);
           ("formats", PyList (PyStr <$> formats));
           ("success", PyBool true);
           ("content_files", PyDict content_files);
           ("title", title);
           ("description", description) ]%string.

Definition failure_record (provider_name url domain scraped_at : string)
    (formats : list string) (error : string) : pyval :=
  PyDict [ ("provider_name", PyStr provider_name);
           ("url", PyStr url);
           ("domain", PyStr domain);
           ("scraped_at", PyStr scraped_at);
           ("formats", PyList (PyStr <$> formats));
           ("success", PyBool false);
           ("error", PyStr error) ]%string.

Section Server.
Variable E : Env.

(** [str(v)] as an f-string field formats it *)
Definition py_str (v : pyval) : string :=
  match v with
  | PyStr s => s
  | _ => py_repr E v
  end.

Definition os_getenv (name : string) : M (option string) :=
  emit (EvGetenv name) ;;; retM (getenv E name).

(** Lines 44-47: the key that [FirecrawlApp] is built with. *)
Definition resolve_api_key (api_key : option string) : M string :=
  match api_key with
  | Some k => retM k
  | None =>
      k <~ os_getenv "FIRECRAWL_API_KEY" ;;
      match k with
      | Some k' =>
          if bool_decide (k' = ""%string) then raiseM missing_api_key
          else retM k'
      | None => raiseM missing_api_key
      end
  end.

(** Line 49: [app = FirecrawlApp(api_key=api_key)]; the application is
    known by its key. *)
Definition FirecrawlApp (api_key : string) : M string :=
  match firecrawl_new E api_key with
  | Some e => raiseM e
  | None => retM api_key
  end.

(** [os.makedirs(path, exist_ok=True)], taken to succeed *)
Definition os_makedirs (path : string) : M unit := fun w =>
  (mkWorld (match scrape_dir w with
            | DirAbsent => DirPresent StoreAbsent
            | d => d
            end)
           (files w) (tick w) (log w ++ [EvMakedirs path]), Ok tt).

(** Lines 78-82: the stored mapping, or an empty one when the metadata
    file does not exist. *)
Definition load_metadata : M pyval := fun w =>
  match stored w with
  | StoreAbsent => retM (PyDict []) w
  | StoreUnreadable e => (emit (EvLoadStore metadata_file) ;;; raiseM e) w
  | StoreParsed v => (emit (EvLoadStore metadata_file) ;;; retM v) w
  end.

(** Lines 140-141: [json.dump] of the whole mapping into the metadata
    file, which a later [json.load] reads back. *)
Definition save_metadata (v : pyval) : M unit :=
  match open_for_write E metadata_file with
  | Some e => raiseM e
  | None => fun w =>
      (mkWorld (DirPresent (StoreParsed v)) (files w) (tick w)
               (log w ++ [EvSaveStore metadata_file v]), Ok tt)
  end.

(** [app.scrape(url=url, formats=formats).model_dump()] *)
Definition app_scrape (app url : string) (formats : list string)
  : M pydict :=
  t <~ next_tick ;;
  emit (EvScrape app url formats) ;;;
  liftM (firecrawl_scrape E t app url formats).

Definition utcnow : M string :=
  t <~ next_tick ;; retM (utcnow_isoformat E t).

Definition put_file (path content : string) : M unit := fun w =>
  (mkWorld (scrape_dir w) (<[path := content]> (files w)) (tick w)
           (log w ++ [EvWriteFile path content]), Ok tt).

(** [with open(filepath, 'w', encoding='utf-8') as f: f.write(content)].
    Opening truncates the file before [f.write] looks at its argument; on a
    POSIX system the text is written as it is. *)
Definition write_text (filepath : string) (content : pyval) : M unit :=
  match open_for_write E filepath with
  | Some e => raiseM e
  | None =>
      match content with
      | PyStr s => put_file filepath s
      | _ =>
          put_file filepath "" ;;;
          raiseM (Exn TypeError
                    ("write() argument must be str, not "
                       +:+ py_type_name content))
      end
  end.

(** Lines 101-109: the loop over the requested formats. *)
Fixpoint write_content_files (provider_name : string)
    (scrape_result : pydict) (formats : list string)
    (content_files : pydict) : M pydict :=
  match formats with
  | [] => retM content_files
  | fmt :: formats' =>
      let content := default PyNone (dict_get fmt scrape_result) in
      if py_truthy content then
        let filename := content_filename provider_name fmt in
        let filepath := os_path_join scrape_path filename in
        write_text filepath content ;;;
        write_content_files provider_name scrape_result formats'
          (dict_set fmt (PyStr filename) content_files)
      else
        write_content_files provider_name scrape_result formats'
          content_files
  end.

(** The message of the [ValueError] of lines 95-96; the line continuation
    keeps the indentation of line 96 inside the string. *)
Definition scrape_failed_message (provider_name url : string)
    (error : pyval) : string :=
  "Scrape failed for " +:+ provider_name +:+ " at " +:+ url +:+ " "
    +:+ "                                  with error: " +:+ py_str error.

(** The local variables [scraped_metadata] and [successful_scrapes]. *)
Definition loop_state : Type := pyval * list string.

(** Lines 93-124: the body of the [try] after the call of the collaborator. *)
Definition process_scrape_result (formats : list string)
    (provider_name url : string) (st : loop_state) (scrape_result : pydict)
  : M loop_state :=
  md <~ liftM (py_get (PyDict scrape_result) "metadata" (PyDict [])) ;;
  status_code <~ liftM (py_get md "status_code" (PyInt 0)) ;;
  if py_ne_int status_code 200 then
    data <~ liftM (py_get (PyDict scrape_result) "data" (PyDict [])) ;;
    data_md <~ liftM (py_get data "metadata" (PyDict [])) ;;
    error <~ liftM (py_get data_md "error" (PyStr "Unknown error")) ;;
    raiseM (Exn ValueError (scrape_failed_message provider_name url error))
  else
    scrape_result_data <~
      liftM (py_get (PyDict scrape_result) "metadata" (PyDict [])) ;;
    content_files <~
      write_content_files provider_name scrape_result formats [] ;;
    domain <~ liftM (urlparse_netloc E url) ;;
    scraped_at <~ utcnow ;;
    title_src <~ liftM (py_get scrape_result_data "metadata" (PyDict [])) ;;
    title <~ liftM (py_get title_src "title" (PyStr "")) ;;
    description_src <~
      liftM (py_get scrape_result_data "metadata" (PyDict [])) ;;
    description <~ liftM (py_get description_src "description" (PyStr "")) ;;
    scraped_metadata <~
      liftM (py_setitem (fst st) provider_name
               (success_record provider_name url domain scraped_at formats
                  content_files title description)) ;;
    retM (scraped_metadata, snd st ++ [provider_name]).

(** Lines 91-124: the body of the [try]. *)
Definition scrape_provider_try (app : string) (formats : list string)
    (provider_name url : string) (st : loop_state) : M loop_state :=
  scrape_result <~ app_scrape app url formats ;;
  process_scrape_result formats provider_name url st scrape_result.

(** Lines 126-136: the [except Exception as e] handler. *)
Definition scrape_provider_except (formats : list string)
    (provider_name url : string) (st : loop_state) (e : exn)
  : M loop_state :=
  domain <~ liftM (urlparse_netloc E url) ;;
  scraped_at <~ utcnow ;;
  scraped_metadata <~
    liftM (py_setitem (fst st) provider_name
             (failure_record provider_name url domain scraped_at formats
                (exn_msg e))) ;;
  retM (scraped_metadata, snd st).

Definition scrape_provider (app : string) (formats : list string)
    (provider_name url : string) (st : loop_state) : M loop_state :=
  try_except (scrape_provider_try app formats provider_name url st)
             (scrape_provider_except formats provider_name url st).

(** Lines 87-136: [for provider_name, url in websites.items()]. *)
Fixpoint scrape_loop (app : string) (formats : list string)
    (websites : list (string * string)) (st : loop_state) : M loop_state :=
  match websites with
  | [] => retM st
  | (provider_name, url) :: websites' =>
      st' <~ scrape_provider app formats provider_name url st ;;
      scrape_loop app formats websites' st'
  end.

(** [scrape_websites(websites, formats, api_key)] *)
Definition scrape_websites (websites : list (string * string))
    (formats : list string) (api_key : option string) : M (list string) :=
  api_key' <~ resolve_api_key api_key ;;
  app <~ FirecrawlApp api_key' ;;
  os_makedirs scrape_path ;;;
  scraped_metadata <~ load_metadata ;;
  st <~ scrape_loop app formats websites (scraped_metadata, []) ;;
  save_metadata (fst st) ;;;
  retM (snd st).

(** ** The lookup tool *)

(** What [extract_scraped_info] returns, before it is turned into text:
    the not-found message for an identifier, or the [result] dictionary
    that [json.dumps] serialises. *)
Inductive lookup_result : Type :=
| NotFound (identifier : string)
| Found (result : pydict).

Definition not_found_message (identifier : string) : string :=
  "There's no saved information related to identifier '"
    +:+ identifier +:+ "'.".

Definition render (r : lookup_result) : string :=
  match r with
  | NotFound identifier => not_found_message identifier
  | Found result => json_dumps E 2 (PyDict result)
  end.

(** [os.listdir(path)], evaluated for the log line of line 159. *)
Definition os_listdir (path : string) : M unit := fun w =>
  match scrape_dir w with
  | DirAbsent =>
      (emit (EvListdir path) ;;;
       raiseM (Exn FileNotFoundError
                 ("[Errno 2] No such file or directory: '" +:+ path +:+ "'")))
        w
  | DirPresent _ => emit (EvListdir path) w
  end.

(** Lines 168-175. *)
Definition read_metadata : M pyval := fun w =>
  match stored w with
  | StoreAbsent =>
      raiseM (Exn FileNotFoundError
                ("Metadata file not found at " +:+ metadata_file)) w
  | StoreUnreadable e =>
      (emit (EvLoadStore metadata_file) ;;;
       raiseM (Exn ValueError
                 ("Error decoding JSON from metadata file: " +:+ exn_msg e)))
        w
  | StoreParsed v => (emit (EvLoadStore metadata_file) ;;; retM v) w
  end.

(** Lines 178-182: the first entry, in iteration order, whose key, [url]
    or [domain] equals the identifier; the result is a copy of it. *)
Fixpoint find_matching_entry (identifier : string) (items : pydict)
  : exc (option pyval) :=
  match items with
  | [] => Ok None
  | (provider_name, data) :: items' =>
      if bool_decide (identifier = provider_name) then Some <$> py_copy data
      else
        url ← py_get data "url" PyNone;
        if py_eq_str identifier url then Some <$> py_copy data
        else
          domain ← py_get data "domain" PyNone;
          if py_eq_str identifier domain then Some <$> py_copy data
          else find_matching_entry identifier items'
  end.

(** [os.path.join(SCRAPE_DIR, filename)] for a [filename] taken from the
    store. *)
Definition join_scrape_dir (filename : pyval) : exc string :=
  match filename with
  | PyStr f => Ok (os_path_join SCRAPE_DIR f)
  | _ =>
      Raise (Exn TypeError
               ("join() argument must be str, bytes, or os.PathLike object, not '"
                  +:+ py_type_name filename +:+ "'"))
  end.

(** Lines 192-198: the text of the file as text mode reads it, or [None]
    when [open] or [f.read] raised and the handler took over. *)
Definition read_text (filepath : string) : M (option string) := fun w =>
  (emit (EvReadFile filepath) ;;;
   retM (universal_newlines <$> files w !! filepath)) w.

(** Lines 190-198: [None] stands for the early return of line 198. *)
Fixpoint read_content_files (items : pydict) (content : pydict)
  : M (option pydict) :=
  match items with
  | [] => retM (Some content)
  | (fmt, filename) :: items' =>
      filepath <~ liftM (join_scrape_dir filename) ;;
      text <~ read_text filepath ;;
      match text with
      | Some c => read_content_files items' (dict_set fmt (PyStr c) content)
      | None => retM None
      end
  end.

Definition extract_scraped_info_result (identifier : string)
  : M lookup_result :=
  os_listdir SCRAPE_DIR ;;;
  scraped_metadata <~ read_metadata ;;
  items <~ liftM (py_items scraped_metadata) ;;
  matched_entry <~ liftM (find_matching_entry identifier items) ;;
  match matched_entry with
  | None => retM (NotFound identifier)
  | Some entry =>
      content_files <~ liftM (py_get entry "content_files" PyNone) ;;
      if py_truthy content_files then
        files_items <~ liftM (py_items content_files) ;;
        content <~ read_content_files files_items [] ;;
        match content with
        | Some c => retM (Found [("content"%string, PyDict c)])
        | None => retM (NotFound identifier)
        end
      else retM (Found [])
  end.

(** [extract_scraped_info(identifier)] *)
Definition extract_scraped_info (identifier : string) : M string :=
  r <~ extract_scraped_info_result identifier ;; retM (render r).

End Server.

(** ** [urllib.parse] on ASCII URLs

    [urlparse(url).netloc] after CPython's [urlsplit], for examples that
    need a concrete [urlparse_netloc].  The validation of a bracketed host
    and the NFKC check of a non-ASCII host are left to two oracles. *)
Module Urllib.

Definition code (c : ascii) : nat := nat_of_ascii c.

(** a member of [_WHATWG_C0_CONTROL_OR_SPACE] *)
Definition is_c0_control_or_space (c : ascii) : bool := (code c <=? 32)%nat.

(** a member of [_UNSAFE_URL_BYTES_TO_REMOVE] *)
Definition is_unsafe_byte (c : ascii) : bool :=
  ((code c =? 9) || (code c =? 13) || (code c =? 10))%nat.

Definition is_ascii_alpha (c : ascii) : bool :=
  ((65 <=? code c) && (code c <=? 90) || (97 <=? code c) && (code c <=? 122))%nat.

(** a member of [scheme_chars] *)
Definition is_scheme_char (c : ascii) : bool :=
  (is_ascii_alpha c || (48 <=? code c) && (code c <=? 57)
   || (code c =? 43) || (code c =? 45) || (code c =? 46))%nat.

(** [url.lstrip(_WHATWG_C0_CONTROL_OR_SPACE)] *)
Fixpoint lstrip (url : list ascii) : list ascii :=
  match url with
  | c :: url' => if is_c0_control_or_space c then lstrip url' else url
  | [] => []
  end.

(** [(url[:i], url[i+1:])] for [i = url.find(':')], when [i >= 0] *)
Fixpoint split_colon (url : list ascii) : option (list ascii * list ascii) :=
  match url with
  | [] => None
  | c :: url' =>
      if bool_decide (c = ":"%char) then Some ([], url')
      else '(pre, post) ← split_colon url'; Some (c :: pre, post)
  end.

(** the URL without its scheme, when it has one *)
Definition strip_scheme (url : list ascii) : list ascii :=
  match split_colon url with
  | Some (c :: pre, post) =>
      if is_ascii_alpha c && forallb is_scheme_char (c :: pre) then post
      else url
  | _ => url
  end.

(** [_splitnetloc(url, 2)[0]] of a URL from which [//] was taken off *)
Fixpoint take_netloc (url : list ascii) : list ascii :=
  match url with
  | [] => []
  | c :: url' =>
      if bool_decide (c = "/"%char) || bool_decide (c = "?"%char)
         || bool_decide (c = "#"%char)
      then [] else c :: take_netloc url'
  end.

Definition contains (c : ascii) (l : list ascii) : bool :=
  existsb (fun c' => bool_decide (c = c')) l.

Definition urlsplit_netloc (check_bracketed check_nfkc : string -> option exn)
    (url : string) : exc string :=
  let url := filter (fun c => is_unsafe_byte c = false)
                    (lstrip (list_ascii_of_string url)) in
  match strip_scheme url with
  | "/"%char :: "/"%char :: rest =>
      let netloc := take_netloc rest in
      let netloc_s := string_of_list_ascii netloc in
      if xorb (contains "["%char netloc) (contains "]"%char netloc)
      then Raise (Exn ValueError "Invalid IPv6 URL")
      else
        match (if contains "["%char netloc then check_bracketed netloc_s
               else None) with
        | Some e => Raise e
        | None =>
            if forallb (fun c => (code c <? 128)%nat) netloc then Ok netloc_s
            else match check_nfkc netloc_s with
                 | Some e => Raise e
                 | None => Ok netloc_s
                 end
        end
  | _ => Ok ""%string
  end.

End Urllib.

(** ** A concrete environment and worlds for examples *)
Module Scenario.

Definition page (status : Z) (title : string) (markdown html : string)
  : pydict :=
  [ ("markdown", PyStr markdown);
    ("html", PyStr html);
    ("metadata", PyDict [ ("title", PyStr title); ("status_code", PyInt status) ]) ]%string.

(** Firecrawl answers for three sites and fails for every other URL. *)
Definition firecrawl (t : nat) (api_key url : string) (formats : list string)
  : exc pydict :=
  if bool_decide (url = "https://acme.example.com/page"%string) then
    Ok (page 200 "Acme" "# Acme" "<h1>Acme</h1>")
  else if bool_decide (url = "https://globex.example.com/"%string) then
    Ok (page 200 "Globex" "# Globex" "")
  else if bool_decide (url = "https://initech.example.com/"%string) then
    Ok (page 503 "" "" "")
  else Raise (Exn (OtherError "BadRequestError") "Bad Request: invalid URL").

Definition env (key : option string) : Env := {|
  getenv name :=
    if bool_decide (name = "FIRECRAWL_API_KEY"%string) then key else None;
  firecrawl_new _ := None;
  firecrawl_scrape := firecrawl;
  urlparse_netloc := Urllib.urlsplit_netloc (fun _ => None) (fun _ => None);
  utcnow_isoformat t := ("2025-10-23T00:44:59.00000" +:+ pretty t)%string;
  open_for_write _ := None;
  py_repr _ := "<object>"%string;
  json_dumps _ _ := "<json>"%string
|}.

(** Nothing has been scraped yet. *)
Definition fresh : World := mkWorld DirAbsent ∅ 0 [].

Definition with_store (v : pyval) (fs : filesystem) : World :=
  mkWorld (DirPresent (StoreParsed v)) fs 0 [].

Definition acme_url : string := "https://acme.example.com/page".

(** Three providers; Firecrawl fails for the second one. *)
Definition batch : list (string * string) :=
  [ ("acme", acme_url);
    ("nowhere", "http://nowhere.example.com/x");
    ("globex", "https://globex.example.com/") ]%string.

(** A store that holds an earlier, failed attempt on acme, and a file that
    an even earlier scrape left behind. *)
Definition earlier : World :=
  with_store
    (PyDict [ ("acme"%string,
               failure_record "acme" acme_url "acme.example.com"
                 "2025-10-22T09:00:00.000000" ["markdown"; "links"]%string
                 "timed out") ])
    {[ "scraped_content/acme_links.txt"%string := "[1] https://acme.example.com"%string ]}.

Definition key : string := "fc-key".

(** Three providers, the second with a URL that [urlparse] rejects. *)
Definition batch_with_bad_url : list (string * string) :=
  [ ("acme", acme_url);
    ("bad", "http://[");
    ("globex", "https://globex.example.com/") ]%string.

Definition store_of (w : World) : pydict :=
  match stored w with
  | StoreParsed (PyDict d) => d
  | _ => []
  end.

(** The world after [batch] was scraped into an empty directory. *)
Definition after_batch : World :=
  (scrape_websites (env None) batch default_formats (Some key) fresh).1.

(** [after_batch], with one of acme's files deleted from outside. *)
Definition html_deleted : World :=
  mkWorld (scrape_dir after_batch)
          (delete "scraped_content/acme_html.txt"%string (files after_batch))
          (tick after_batch) (log after_batch).

Definition shop_record (provider_name : string) : pyval :=
  success_record provider_name
    ("https://shop.example.com/" +:+ provider_name) "shop.example.com"
    "2025-10-23T00:44:59.000001" ["markdown"]%string
    [ ("markdown"%string, PyStr (content_filename provider_name "markdown")) ]
    (PyStr "") (PyStr "").

(** Two providers whose pages are on one domain. *)
Definition shared_domain : World :=
  with_store
    (PyDict [ ("acme"%string, shop_record "acme");
              ("globex"%string, shop_record "globex") ])
    {[ "scraped_content/acme_markdown.txt"%string := "# Acme"%string;
       "scraped_content/globex_markdown.txt"%string := "# Globex"%string ]}.

(** A metadata file that holds the JSON array [[]]. *)
Definition array_store : World := with_store (PyList []) ∅.

(** A metadata file that is not JSON. *)
Definition not_json : exn :=
  Exn (OtherError "JSONDecodeError") "Expecting value: line 1 column 1 (char 0)".

Definition unreadable : World :=
  mkWorld (DirPresent (StoreUnreadable not_json)) ∅ 0 [].



(** A page whose title sits where the scrape tool reads it, with an outer
    title that it does not read. *)
Definition nested_page : pydict :=
  [ ("markdown", PyStr "# Acme");
    ("metadata",
     PyDict [ ("title", PyStr "Outer");
              ("description", PyStr "Outer description");
              ("status_code", PyInt 200);
              ("metadata", PyDict [ ("title", PyStr "Acme Corp") ]) ]) ]%string.

(** [env], with a Firecrawl that answers every URL with [nested_page]. *)
Definition nested_env : Env := {|
  getenv := getenv (env None);
  firecrawl_new := firecrawl_new (env None);
  firecrawl_scrape _ _ _ _ := Ok nested_page;
  urlparse_netloc := urlparse_netloc (env None);
  utcnow_isoformat := utcnow_isoformat (env None);
  open_for_write := open_for_write (env None);
  py_repr := py_repr (env None);
  json_dumps := json_dumps (env None)
|}.





Definition nowhere_url : string := "http://nowhere.example.com/x".


Definition initech_url : string := "https://initech.example.com/".

End Scenario.

(** ** Vocabulary of the properties *)

Definition is_save (ev : event) : bool :=
  match ev with EvSaveStore _ _ => true | _ => false end.

Definition is_getenv (ev : event) : bool :=
  match ev with EvGetenv _ => true | _ => false end.

Definition is_scrape (ev : event) : bool :=
  match ev with EvScrape _ _ _ => true | _ => false end.

Definition is_write_file (ev : event) : bool :=
  match ev with EvWriteFile _ _ => true | _ => false end.

(** [ev] does not write the file that [path] names. *)
Definition leaves_path (fs : filesystem) (path : string) (ev : event) : bool :=
  match ev with
  | EvWriteFile path' _ =>
      negb (bool_decide (resolve fs path' = resolve fs path))
  | _ => true
  end.

(** a call of the collaborator was made with the key [k] *)
Definition scrape_uses_key (k : string) (ev : event) : bool :=
  match ev with
  | EvScrape k' _ _ => bool_decide (k' = k)
  | _ => true
  end.

(** neither a call of the collaborator nor a write *)
Definition is_setup (ev : event) : bool :=
  match ev with
  | EvGetenv _ | EvMakedirs _ | EvLoadStore _ => true
  | _ => false
  end.

(** a call of the collaborator or a write of a content file *)
Definition is_loop_event (ev : event) : bool := is_scrape ev || is_write_file ev.

(** The environment with another table of environment variables. *)
Definition with_getenv (g : string -> option string) (E : Env) : Env := {|
  getenv := g;
  firecrawl_new := firecrawl_new E;
  firecrawl_scrape := firecrawl_scrape E;
  urlparse_netloc := urlparse_netloc E;
  utcnow_isoformat := utcnow_isoformat E;
  open_for_write := open_for_write E;
  py_repr := py_repr E;
  json_dumps := json_dumps E
|}.

(** The calls of the collaborator that a batch makes, in order. *)
Definition scrape_events (api_key : string) (formats : list string)
    (websites : list (string * string)) : list event :=
  (fun pu => EvScrape api_key pu.2 formats) <$> websites.

(** A computation keeps a relation between the world before and after it,
    whether it returns or raises. *)
Definition maintains (R : relation World) {A} (c : M A) : Prop :=
  forall w, R w (c w).1.

(** The log grows by events that satisfy [P]. *)
Definition extends_log (P : event -> bool) : relation World :=
  fun w w' => exists evs, log w' = log w ++ evs /\ forallb P evs = true.

(** The metadata file is as it was. *)
Definition keeps_stored : relation World :=
  fun w w' => stored w' = stored w.

(** Paths name the files they named, no file disappears, and a file
    changes only through a logged write to a path that names it. *)
Definition files_evolve : relation World :=
  fun w w' =>
    resolve (files w') = resolve (files w) /\
    exists evs, log w' = log w ++ evs /\
      forall path,
        (is_Some (files w !! path) -> is_Some (files w' !! path)) /\
        (forallb (leaves_path (files w) path) evs = true ->
         files w' !! path = files w !! path).

(** The clock does not go back. *)
Definition clock_advances : relation World :=
  fun w w' => (tick w <= tick w')%nat.

(** [scrape_result.get(fmt, None)] *)
Definition content_of (scrape_result : pydict) (fmt : string) : pyval :=
  default PyNone (dict_get fmt scrape_result).


(** The path a scrape of [provider_name] writes the format [fmt] to. *)
Definition content_path (provider_name fmt : string) : string :=
  os_path_join scrape_path (content_filename provider_name fmt).

(** The [content_files] of a response: the requested formats that have a
    truthy content, each with its file name. *)
Definition content_files_of (provider_name : string) (scrape_result : pydict)
    (formats : list string) : pydict :=
  fold_left
    (fun cf fmt =>
       if py_truthy (content_of scrape_result fmt)
       then dict_set fmt (PyStr (content_filename provider_name fmt)) cf
       else cf)
    formats [].


(** [r.get(name)] for a record [r] of the store *)
Definition field (name : string) (r : pyval) : option pyval :=
  match r with
  | PyDict d => dict_get name d
  | _ => None
  end.

(** [list(r)]: the keys of a record, in order *)
Definition record_keys (r : pyval) : list string :=
  match r with
  | PyDict d => dict_keys d
  | _ => []
  end.

(** The fields that both variants of a ScrapeRecord have. *)
Definition attempt_fields (provider_name url domain scraped_at : string)
    (formats : list string) (r : pyval) : Prop :=
  field "provider_name" r = Some (PyStr provider_name) /\
  field "url" r = Some (PyStr url) /\
  field "domain" r = Some (PyStr domain) /\
  field "scraped_at" r = Some (PyStr scraped_at) /\
  field "formats" r = Some (PyList (PyStr <$> formats)).

(** [r] is a success record with these fields and no others. *)
Definition success_fields (provider_name url domain scraped_at : string)
    (formats : list string) (content_files : pydict)
    (title description : pyval) (r : pyval) : Prop :=
  attempt_fields provider_name url domain scraped_at formats r /\
  field "success" r = Some (PyBool true) /\
  field "content_files" r = Some (PyDict content_files) /\
  field "title" r = Some title /\
  field "description" r = Some description /\
  record_keys r
  = ["provider_name"; "url"; "domain"; "scraped_at"; "formats"; "success";
     "content_files"; "title"; "description"]%string.

(** [r] is a failure record with these fields and no others. *)
Definition failure_fields (provider_name url domain scraped_at : string)
    (formats : list string) (error : string) (r : pyval) : Prop :=
  attempt_fields provider_name url domain scraped_at formats r /\
  field "success" r = Some (PyBool false) /\
  field "error" r = Some (PyStr error) /\
  record_keys r
  = ["provider_name"; "url"; "domain"; "scraped_at"; "formats"; "success";
     "error"]%string.

(** The [try] body of an attempt on a store that is a mapping, with the call
    of the collaborator made at time [t], raises [e] and stops at time
    [t']. *)
Definition attempt_raises (E : Env) (k provider_name url : string)
    (formats : list string) (t : nat) (e : exn) (t' : nat) : Prop :=
  exists d acc w w1,
    tick w = t /\
    scrape_provider_try E k formats provider_name url (PyDict d, acc) w
      = (w1, Raise e) /\
    tick w1 = t'.

(** [r] is the record of an attempt on [(provider_name, url)] with [formats]
    and the key [k], made between the times [t0] and [t1].  The collaborator
    was called at a time [t] of that interval.  A success record holds what
    the response to that call gives and the next reading of the clock; a
    failure record holds the text of the exception that the [try] body
    raised and the reading of the clock that the handler took. *)
Definition attempt_record (E : Env) (k provider_name url : string)
    (formats : list string) (t0 t1 : nat) (r : pyval) : Prop :=
  exists domain t,
    (t0 <= t)%nat /\
    urlparse_netloc E url = Ok domain /\
    ((exists scrape_result md title description,
        (S (S t) <= t1)%nat /\
        firecrawl_scrape E t k url formats = Ok scrape_result /\
        dict_get "metadata"%string scrape_result = Some (PyDict md) /\
        py_get (default (PyDict []) (dict_get "metadata"%string md))
               "title" (PyStr "") = Ok title /\
        py_get (default (PyDict []) (dict_get "metadata"%string md))
               "description" (PyStr "") = Ok description /\
        success_fields provider_name url domain (utcnow_isoformat E (S t))
          formats (content_files_of provider_name scrape_result formats)
          title description r) \/
     (exists e t',
        (S t' <= t1)%nat /\
        attempt_raises E k provider_name url formats t e t' /\
        failure_fields provider_name url domain (utcnow_isoformat E t')
          formats (exn_msg e) r)).

(** [r["success"]] of the record stored under [provider_name] *)
Definition succeeded (d : pydict) (provider_name : string) : bool :=
  match dict_get provider_name d with
  | Some (PyDict r) =>
      match dict_get "success"%string r with
      | Some (PyBool b) => b
      | _ => false
      end
  | _ => false
  end.

(** [r["success"]] *)
Definition record_success (r : pyval) : bool :=
  match r with
  | PyDict d =>
      match dict_get "success"%string d with
      | Some (PyBool b) => b
      | _ => false
      end
  | _ => false
  end.

(** The test of line 180 on one item of the store, for a record that is a
    dictionary. *)
Definition entry_matches (identifier provider_name : string) (data : pyval)
  : bool :=
  bool_decide (identifier = provider_name)
  || match data with
     | PyDict d =>
         py_eq_str identifier (default PyNone (dict_get "url"%string d))
         || py_eq_str identifier (default PyNone (dict_get "domain"%string d))
     | _ => false
     end.

(** The linear search as the specification words it: the first record, in
    iteration order, whose provider name, url or domain equals the
    identifier. *)
Fixpoint first_match (identifier : string) (items : pydict) : option pyval :=
  match items with
  | [] => None
  | (provider_name, data) :: items' =>
      if entry_matches identifier provider_name data then Some data
      else first_match identifier items'
  end.

Definition is_dict (v : pyval) : bool :=
  match v with PyDict _ => true | _ => false end.

Definition is_str (v : pyval) : bool :=
  match v with PyStr _ => true | _ => false end.

(** A record whose [content_files], when present and non-empty, maps
    formats to file names. *)
Definition record_well_formed (data : pyval) : bool :=
  match data with
  | PyDict d =>
      match default PyNone (dict_get "content_files"%string d) with
      | PyDict cf => forallb (fun kv => is_str kv.2) cf
      | v => negb (py_truthy v)
      end
  | _ => false
  end.

(** A store as the scrape tool writes it: a mapping from provider names to
    well-formed records. *)
Definition store_well_formed (v : pyval) : bool :=
  match v with
  | PyDict d => forallb (fun kv => record_well_formed kv.2) d
  | _ => false
  end.

(** The world after the lookup has listed the directory and loaded the
    metadata file. *)
Definition after_listdir (w : World) : World :=
  (emit (EvLoadStore metadata_file)
     (emit (EvListdir SCRAPE_DIR) w).1).1.

(** The content section of a lookup result, when there is a result. *)
Definition payload (r : lookup_result) : option pydict :=
  match r with
  | Found result => Some result
  | NotFound _ => None
  end.

(** a step of the lookup: listing, loading or reading *)
Definition is_lookup_event (ev : event) : bool :=
  match ev with
  | EvListdir _ | EvLoadStore _ | EvReadFile _ => true
  | _ => false
  end.

(** The two worlds have the same directory, metadata file and content
    files. *)
Definition same_disk (w1 w2 : World) : Prop :=
  scrape_dir w1 = scrape_dir w2 /\ files w1 = files w2.

(** A computation that reads nothing but the disk: on the same disk it
    gives the same answer and leaves the same disk. *)
Definition reads_disk_only {A} (c : M A) : Prop :=
  forall w1 w2, same_disk w1 w2 ->
    same_disk (c w1).1 (c w2).1 /\ (c w1).2 = (c w2).2.

(** The disk and the clock are as they were. *)
Definition untouched : relation World :=
  fun w w' => scrape_dir w' = scrape_dir w /\ files w' = files w /\
              tick w' = tick w.

Fixpoint last_char (s : string) : option ascii :=
  match s with
  | EmptyString => None
  | String c EmptyString => Some c
  | String _ s' => last_char s'
  end.

(** [scrape_result.get("metadata", {}).get("status_code", 0)] *)
Definition status_of (scrape_result : pydict) : exc pyval :=
  md ← py_get (PyDict scrape_result) "metadata" (PyDict []);
  py_get md "status_code" (PyInt 0).

(** [scrape_result.get("data", {}).get("metadata", {}).get('error',
    'Unknown error')] *)
Definition reported_error (scrape_result : pydict) : exc pyval :=
  data ← py_get (PyDict scrape_result) "data" (PyDict []);
  data_md ← py_get data "metadata" (PyDict []);
  py_get data_md "error" (PyStr "Unknown error").

(** Why the status check of lines 94-96 fails an attempt, as the message
    of the exception it raises; [None] when the status is 200. *)
Definition status_failure (E : Env) (provider_name url : string)
    (scrape_result : pydict) : option string :=
  match status_of scrape_result with
  | Raise e => Some (exn_msg e)
  | Ok status_code =>
      if py_ne_int status_code 200 then
        Some (match reported_error scrape_result with
              | Ok error =>
                  "Scrape failed for " +:+ provider_name +:+ " at " +:+ url
                    +:+ "                                   with error: "
                    +:+ match error with
                        | PyStr s => s
                        | v => py_repr E v
                        end
              | Raise e => exn_msg e
              end)
      else None
  end.




(** No record of the store other than the one under [provider_name] is
    found by the identifier [provider_name]: each is a dictionary whose key,
    url and domain differ from it. *)
Definition only_own_record (provider_name : string) (d : pydict) : Prop :=
  Forall (fun kv => kv.1 = provider_name \/
                    (is_dict kv.2 = true /\
                     entry_matches provider_name kv.1 kv.2 = false)) d.



(** * Properties *)

(** ** Dictionaries in insertion order *)

Section DictFacts.
Context {V : Type}.
Implicit Types (k q : string) (v : V) (d : list (string * V)).

Lemma dict_get_set_eq k v d : dict_get k (dict_set k v d) = Some v.
Proof.
  induction d as [|[k' v'] d IH]; simpl.
  - by rewrite decide_True.
  - destruct (decide (k = k')) as [->|Hne]; simpl.
    + by rewrite decide_True.
    + by rewrite decide_False.
Qed.

Lemma dict_get_set_ne k q v d :
  k <> q -> dict_get q (dict_set k v d) = dict_get q d.
Proof.
  intros Hne. induction d as [|[k' v'] d IH]; simpl.
  - by rewrite decide_False.
  - destruct (decide (k = k')) as [->|Hkk']; simpl.
    + by rewrite !decide_False.
    + by rewrite IH.
Qed.


Lemma dict_get_None_key k d : dict_get k d = None <-> k ∉ dict_keys d.
Proof.
  unfold dict_keys. induction d as [|[k' v'] d IH]; simpl.
  - split; [intros _; apply not_elem_of_nil | done].
  - rewrite not_elem_of_cons. destruct (decide (k = k')) as [->|Hne].
    + split; [done | intros [? _]; done].
    + rewrite IH. tauto.
Qed.

Lemma dict_keys_set k v d :
  dict_keys (dict_set k v d) =
  if decide (k ∈ dict_keys d) then dict_keys d else dict_keys d ++ [k].
Proof.
  unfold dict_keys. induction d as [|[k' v'] d IH].
  - destruct (decide (k ∈ ([] : list (string * V)).*1)) as [H|H]; [|done].
    by apply elem_of_nil in H.
  - destruct (decide (k ∈ ((k', v') :: d).*1)) as [Hin|Hnin];
      cbn [dict_set]; destruct (decide (k = k')) as [->|Hne]; cbn [fmap list_fmap fst].
    + done.
    + rewrite IH. rewrite decide_True; [done|].
      cbn [fmap list_fmap fst] in Hin. apply elem_of_cons in Hin as [?|?]; done.
    + exfalso. apply Hnin. apply list_elem_of_here.
    + rewrite IH. rewrite decide_False; [done|].
      intros ?. apply Hnin. by apply list_elem_of_further.
Qed.

Lemma dict_set_elem_of q k v d :
  q ∈ dict_keys (dict_set k v d) <-> q = k \/ q ∈ dict_keys d.
Proof.
  rewrite dict_keys_set. destruct (decide (k ∈ dict_keys d)).
  - split; [auto | intros [->|?]; done].
  - rewrite elem_of_app, list_elem_of_singleton. tauto.
Qed.

Lemma dict_set_NoDup k v d :
  NoDup (dict_keys d) -> NoDup (dict_keys (dict_set k v d)).
Proof.
  intros Hnd. rewrite dict_keys_set. destruct (decide (k ∈ dict_keys d)).
  - done.
  - apply NoDup_app. split; [done|]. split.
    + intros x Hx Hk. apply list_elem_of_singleton in Hk. by subst.
    + apply NoDup_singleton.
Qed.

End DictFacts.

(** ** The monad *)

Lemma bindM_run {A B} (c : M A) (k : A -> M B) w w1 a :
  c w = (w1, Ok a) -> bindM c k w = k a w1.
Proof. intros H. unfold bindM. by rewrite H. Qed.

Lemma bindM_raise {A B} (c : M A) (k : A -> M B) w w1 e :
  c w = (w1, Raise e) -> bindM c k w = (w1, Raise e).
Proof. intros H. unfold bindM. by rewrite H. Qed.

Lemma bindM_ok {A B} (c : M A) (k : A -> M B) w w' b :
  bindM c k w = (w', Ok b) ->
  exists a w1, c w = (w1, Ok a) /\ k a w1 = (w', Ok b).
Proof.
  unfold bindM. destruct (c w) as [w1 [a|e]]; intros H.
  - eauto.
  - discriminate.
Qed.

Lemma liftM_ok {A} (c : exc A) w w' a :
  liftM c w = (w', Ok a) -> w' = w /\ c = Ok a.
Proof. unfold liftM. intros H. by simplify_eq. Qed.

Lemma retM_ok {A} (x : A) w w' a : retM x w = (w', Ok a) -> w' = w /\ a = x.
Proof. unfold retM. intros H. by simplify_eq. Qed.

Lemma try_except_inv {A} (c : M A) (h : exn -> M A) w w' r :
  try_except c h w = (w', r) ->
  (exists a, c w = (w', Ok a) /\ r = Ok a) \/
  (exists w1 e, c w = (w1, Raise e) /\ h e w1 = (w', r)).
Proof.
  unfold try_except. destruct (c w) as [w1 [a|e]]; intros H.
  - left. exists a. by simplify_eq.
  - right. eauto.
Qed.

(** Inversion of a run that returned: one step per bind. *)
Ltac invert_ok H :=
  let a := fresh "a" in
  let w := fresh "w" in
  let H1 := fresh "Hrun" in
  lazymatch type of H with
  | bindM _ _ _ = (_, Ok _) =>
      apply bindM_ok in H as (a & w & H1 & H); invert_ok H1; invert_ok H
  | liftM _ _ = (_, Ok _) => apply liftM_ok in H as [-> H]
  | retM _ _ = (_, Ok _) => apply retM_ok in H as [-> H]
  | raiseM _ _ = (_, Ok _) => unfold raiseM in H; discriminate H
  | _ => idtac
  end.

Lemma py_get_ok v k dflt x :
  py_get v k dflt = Ok x ->
  exists d, v = PyDict d /\ x = default dflt (dict_get k d).
Proof. destruct v; simpl; intros H; simplify_eq. eauto. Qed.

Lemma py_setitem_ok v k x v' :
  py_setitem v k x = Ok v' ->
  exists d, v = PyDict d /\ v' = PyDict (dict_set k x d).
Proof. destruct v; simpl; intros H; simplify_eq. eauto. Qed.

(** ** Relations that every step keeps *)

Section Maintains.
Context (R : relation World) `{!PreOrder R}.

Lemma maintains_ret {A} (a : A) : maintains R (retM a).
Proof. intros w. simpl. reflexivity. Qed.

Lemma maintains_raise {A} e : maintains R (@raiseM A e).
Proof. intros w. simpl. reflexivity. Qed.

Lemma maintains_lift {A} (c : exc A) : maintains R (liftM c).
Proof. intros w. simpl. reflexivity. Qed.

Lemma maintains_bind {A B} (c : M A) (k : A -> M B) :
  maintains R c -> (forall a, maintains R (k a)) -> maintains R (bindM c k).
Proof.
  intros Hc Hk w. unfold bindM. specialize (Hc w).
  destruct (c w) as [w1 [a|e]]; simpl in *.
  - etrans; [exact Hc | apply Hk].
  - done.
Qed.

Lemma maintains_try {A} (c : M A) (h : exn -> M A) :
  maintains R c -> (forall e, maintains R (h e)) -> maintains R (try_except c h).
Proof.
  intros Hc Hh w. unfold try_except. specialize (Hc w).
  destruct (c w) as [w1 [a|e]]; simpl in *.
  - done.
  - etrans; [exact Hc | apply Hh].
Qed.

End Maintains.

#[global] Instance extends_log_preorder P : PreOrder (extends_log P).
Proof.
  split.
  - intros w. exists []. by rewrite app_nil_r.
  - intros w1 w2 w3 (evs1 & H1 & HP1) (evs2 & H2 & HP2).
    exists (evs1 ++ evs2). rewrite H2, H1, app_assoc. split; [done|].
    rewrite forallb_app, HP1, HP2. done.
Qed.

#[global] Instance keeps_stored_preorder : PreOrder keeps_stored.
Proof.
  split.
  - intros w. reflexivity.
  - intros w1 w2 w3 H1 H2. unfold keeps_stored in *. congruence.
Qed.

(** *** Files and the paths that name them *)

Lemma fs_lookup_insert (fs : filesystem) path text path' :
  <[path := text]> fs !! path'
  = if bool_decide (resolve fs path = resolve fs path') then Some text
    else fs !! path'.
Proof.
  unfold lookup, insert, filesystem_lookup, filesystem_insert. simpl.
  case_bool_decide as Heq.
  - rewrite Heq. apply lookup_insert_eq.
  - by apply lookup_insert_ne.
Qed.


Lemma fs_lookup_insert_ne (fs : filesystem) path text path' :
  resolve fs path <> resolve fs path' ->
  <[path := text]> fs !! path' = fs !! path'.
Proof. intros Hne. by rewrite fs_lookup_insert, bool_decide_eq_false_2. Qed.


Lemma leaves_path_resolve fs fs' path ev :
  resolve fs' = resolve fs -> leaves_path fs' path ev = leaves_path fs path ev.
Proof. intros H. destruct ev; simpl; by rewrite ?H. Qed.

Lemma forallb_leaves_path_resolve fs fs' path evs :
  resolve fs' = resolve fs ->
  forallb (leaves_path fs' path) evs = forallb (leaves_path fs path) evs.
Proof.
  intros H. induction evs as [|ev evs IH]; [done|]. simpl.
  by rewrite IH, (leaves_path_resolve _ _ _ _ H).
Qed.

#[global] Instance files_evolve_preorder : PreOrder files_evolve.
Proof.
  split.
  - intros w. split; [done|]. exists []. rewrite app_nil_r. split; [done|].
    intros path. auto.
  - intros w1 w2 w3 (Hr1 & evs1 & H1 & HP1) (Hr2 & evs2 & H2 & HP2).
    split; [congruence|].
    exists (evs1 ++ evs2). rewrite H2, H1, app_assoc. split; [done|].
    intros path. destruct (HP1 path) as [Ha1 Hb1], (HP2 path) as [Ha2 Hb2].
    split; [auto|]. rewrite forallb_app. intros [H H']%andb_prop.
    rewrite Hb2, Hb1; [done..|].
    by rewrite (forallb_leaves_path_resolve _ _ _ _ Hr1).
Qed.

#[global] Instance clock_advances_preorder : PreOrder clock_advances.
Proof.
  split.
  - intros w. unfold clock_advances. lia.
  - intros w1 w2 w3. unfold clock_advances. lia.
Qed.

(** One compositional step of a [maintains] goal. *)
Ltac maintains_step :=
  lazymatch goal with
  | |- maintains _ (bindM _ _) =>
      refine (maintains_bind _ _ _ _ _); [ | intros ? ]
  | |- maintains _ (try_except _ _) =>
      refine (maintains_try _ _ _ _ _); [ | intros ? ]
  | |- maintains _ (retM _) => refine (maintains_ret _ _)
  | |- maintains _ (raiseM _) => refine (maintains_raise _ _)
  | |- maintains _ (liftM _) => refine (maintains_lift _ _)
  | |- maintains _ (match ?x with _ => _ end) => destruct x
  end.

Create HintDb maintains discriminated.

Ltac maintains_auto := repeat (first [ maintains_step | solve [eauto with maintains] ]).

(** *** The log *)

Section LogFacts.
Context (E : Env) (P : event -> bool).

Lemma emit_log ev : P ev = true -> maintains (extends_log P) (emit ev).
Proof. intros HP w. exists [ev]. simpl. by rewrite HP. Qed.

Lemma next_tick_log : maintains (extends_log P) next_tick.
Proof. intros w. exists []. simpl. by rewrite app_nil_r. Qed.

Lemma put_file_log path c :
  P (EvWriteFile path c) = true -> maintains (extends_log P) (put_file path c).
Proof. intros HP w. exists [EvWriteFile path c]. simpl. by rewrite HP. Qed.

Lemma os_makedirs_log path :
  P (EvMakedirs path) = true -> maintains (extends_log P) (os_makedirs path).
Proof. intros HP w. exists [EvMakedirs path]. simpl. by rewrite HP. Qed.

Lemma load_metadata_log :
  P (EvLoadStore metadata_file) = true ->
  maintains (extends_log P) load_metadata.
Proof.
  intros HP w. unfold load_metadata.
  destruct (stored w); [exists []; simpl; by rewrite app_nil_r | |];
    exists [EvLoadStore metadata_file]; simpl; by rewrite HP.
Qed.

Lemma save_metadata_log v :
  P (EvSaveStore metadata_file v) = true ->
  maintains (extends_log P) (save_metadata E v).
Proof.
  intros HP w. unfold save_metadata. destruct (open_for_write E metadata_file).
  - exists []. simpl. by rewrite app_nil_r.
  - exists [EvSaveStore metadata_file v]. simpl. by rewrite HP.
Qed.

Hint Resolve emit_log next_tick_log put_file_log : maintains.

Lemma write_text_log filepath content :
  (forall c, P (EvWriteFile filepath c) = true) ->
  maintains (extends_log P) (write_text E filepath content).
Proof. intros HP. unfold write_text. maintains_auto. Qed.

Lemma write_content_files_log provider_name scrape_result formats cf :
  (forall path c, P (EvWriteFile path c) = true) ->
  maintains (extends_log P)
    (write_content_files E provider_name scrape_result formats cf).
Proof.
  intros HP. revert cf. induction formats as [|fmt formats IH]; intros cf; simpl.
  - maintains_auto.
  - destruct (py_truthy _); [|done].
    maintains_step; [by apply write_text_log | apply IH].
Qed.

Lemma process_scrape_result_log formats provider_name url st scrape_result :
  (forall path c, P (EvWriteFile path c) = true) ->
  maintains (extends_log P)
    (process_scrape_result E formats provider_name url st scrape_result).
Proof.
  intros HPw. pose proof write_content_files_log.
  unfold process_scrape_result, utcnow. maintains_auto.
Qed.

Lemma scrape_provider_except_log formats provider_name url st e :
  maintains (extends_log P)
    (scrape_provider_except E formats provider_name url st e).
Proof. unfold scrape_provider_except, utcnow. maintains_auto. Qed.

Lemma scrape_provider_log k formats provider_name url st :
  (forall u, P (EvScrape k u formats) = true) ->
  (forall path c, P (EvWriteFile path c) = true) ->
  maintains (extends_log P) (scrape_provider E k formats provider_name url st).
Proof.
  intros HPs HPw. pose proof write_content_files_log.
  unfold scrape_provider, scrape_provider_try, scrape_provider_except,
    process_scrape_result, app_scrape, utcnow.
  maintains_auto.
Qed.

Lemma scrape_loop_log k formats websites st :
  (forall u, P (EvScrape k u formats) = true) ->
  (forall path c, P (EvWriteFile path c) = true) ->
  maintains (extends_log P) (scrape_loop E k formats websites st).
Proof.
  intros HPs HPw. revert st.
  induction websites as [|[provider_name url] websites IH]; intros st; simpl.
  - maintains_auto.
  - maintains_step; [by apply scrape_provider_log | apply IH].
Qed.

End LogFacts.

(** *** The metadata file during the loop *)

Section StoredFacts.
Context (E : Env).

Lemma emit_stored ev : maintains keeps_stored (emit ev).
Proof. intros w. reflexivity. Qed.

Lemma next_tick_stored : maintains keeps_stored next_tick.
Proof. intros w. reflexivity. Qed.

Lemma put_file_stored path c : maintains keeps_stored (put_file path c).
Proof. intros w. reflexivity. Qed.

Lemma os_makedirs_stored path : maintains keeps_stored (os_makedirs path).
Proof.
  intros w. unfold keeps_stored, stored. simpl. by destruct (scrape_dir w).
Qed.

Lemma load_metadata_stored : maintains keeps_stored load_metadata.
Proof.
  intros w. unfold load_metadata. destruct (stored w) eqn:Hs; simpl; done.
Qed.

Hint Resolve emit_stored next_tick_stored put_file_stored : maintains.

Lemma write_content_files_stored provider_name scrape_result formats cf :
  maintains keeps_stored
    (write_content_files E provider_name scrape_result formats cf).
Proof.
  revert cf. induction formats as [|fmt formats IH]; intros cf; simpl.
  - maintains_auto.
  - destruct (py_truthy _); [|done].
    maintains_step; [unfold write_text; maintains_auto | apply IH].
Qed.

Lemma scrape_provider_stored k formats provider_name url st :
  maintains keeps_stored (scrape_provider E k formats provider_name url st).
Proof.
  pose proof write_content_files_stored.
  unfold scrape_provider, scrape_provider_try, scrape_provider_except,
    process_scrape_result, app_scrape, utcnow.
  maintains_auto.
Qed.

Lemma scrape_loop_stored k formats websites st :
  maintains keeps_stored (scrape_loop E k formats websites st).
Proof.
  revert st.
  induction websites as [|[provider_name url] websites IH]; intros st; simpl.
  - maintains_auto.
  - maintains_step; [apply scrape_provider_stored | apply IH].
Qed.

End StoredFacts.

(** *** The content files *)

Section FilesFacts.
Context (E : Env).

Lemma emit_files ev : is_write_file ev = false -> maintains files_evolve (emit ev).
Proof.
  intros Hev w. split; [done|]. exists [ev]. simpl. split; [done|].
  intros path. auto.
Qed.

Lemma next_tick_files : maintains files_evolve next_tick.
Proof.
  intros w. split; [done|]. exists []. simpl. rewrite app_nil_r.
  split; [done|]. intros path. auto.
Qed.

Lemma put_file_files path c : maintains files_evolve (put_file path c).
Proof.
  intros w. split; [done|]. exists [EvWriteFile path c]. simpl.
  split; [done|]. intros path'. rewrite fs_lookup_insert. split.
  - intros Hsome. case_bool_decide; eauto.
  - rewrite andb_true_r. intros Hne%negb_true_iff%bool_decide_eq_false.
    by rewrite bool_decide_eq_false_2.
Qed.

Lemma os_makedirs_files path : maintains files_evolve (os_makedirs path).
Proof.
  intros w. split; [done|]. exists [EvMakedirs path]. simpl. split; [done|].
  intros path'. auto.
Qed.

Lemma load_metadata_files : maintains files_evolve load_metadata.
Proof.
  intros w. unfold load_metadata. split; [by destruct (stored w)|].
  destruct (stored w);
    [ exists []; simpl; rewrite app_nil_r
    | exists [EvLoadStore metadata_file]; simpl
    | exists [EvLoadStore metadata_file]; simpl ];
    (split; [done|]); intros path; auto.
Qed.

Lemma save_metadata_files v : maintains files_evolve (save_metadata E v).
Proof.
  unfold save_metadata. destruct (open_for_write E metadata_file).
  - maintains_auto.
  - intros w. split; [done|]. exists [EvSaveStore metadata_file v]. simpl.
    split; [done|]. intros path'. auto.
Qed.

Hint Resolve emit_files next_tick_files put_file_files os_makedirs_files
  load_metadata_files save_metadata_files : maintains.





End FilesFacts.

(** *** The clock *)

Section ClockFacts.
Context (E : Env).

Lemma emit_clock ev : maintains clock_advances (emit ev).
Proof. intros w. unfold clock_advances. simpl. lia. Qed.

Lemma next_tick_clock : maintains clock_advances next_tick.
Proof. intros w. unfold clock_advances. simpl. lia. Qed.

Lemma put_file_clock path c : maintains clock_advances (put_file path c).
Proof. intros w. unfold clock_advances. simpl. lia. Qed.

Hint Resolve emit_clock next_tick_clock put_file_clock : maintains.

Lemma write_content_files_clock provider_name scrape_result formats cf :
  maintains clock_advances
    (write_content_files E provider_name scrape_result formats cf).
Proof.
  revert cf. induction formats as [|fmt formats IH]; intros cf; simpl.
  - maintains_auto.
  - destruct (py_truthy _); [|done].
    maintains_step; [unfold write_text; maintains_auto | apply IH].
Qed.

Lemma scrape_provider_clock k formats provider_name url st :
  maintains clock_advances (scrape_provider E k formats provider_name url st).
Proof.
  pose proof write_content_files_clock.
  unfold scrape_provider, scrape_provider_try, scrape_provider_except,
    process_scrape_result, app_scrape, utcnow.
  maintains_auto.
Qed.

Lemma scrape_loop_clock k formats websites st :
  maintains clock_advances (scrape_loop E k formats websites st).
Proof.
  revert st.
  induction websites as [|[provider_name url] websites IH]; intros st; simpl.
  - maintains_auto.
  - maintains_step; [apply scrape_provider_clock | apply IH].
Qed.

End ClockFacts.

(** ** Paths of content files *)

Lemma string_app_cons c s t : String c s +:+ t = String c (s +:+ t).
Proof. reflexivity. Qed.

Lemma string_length_app s t :
  String.length (s +:+ t) = (String.length s + String.length t)%nat.
Proof.
  induction s as [|c s IH]; [done|].
  rewrite string_app_cons. cbn [String.length]. by rewrite IH.
Qed.

Lemma string_app_inj_r s1 s2 t : s1 +:+ t = s2 +:+ t -> s1 = s2.
Proof.
  revert s2. induction s1 as [|c1 s1 IH]; intros [|c2 s2] H.
  - done.
  - apply (f_equal String.length) in H.
    rewrite string_app_cons in H. cbn [String.length] in H.
    change ("" +:+ t) with t in H. rewrite string_length_app in H. lia.
  - apply (f_equal String.length) in H.
    rewrite string_app_cons in H. cbn [String.length] in H.
    change ("" +:+ t) with t in H. rewrite string_length_app in H. lia.
  - rewrite !string_app_cons in H. injection H as -> H. f_equal. by apply IH.
Qed.

Lemma os_path_join_scrape_path b :
  os_path_join scrape_path b =
  if starts_with_slash b then b else "scraped_content/" +:+ b.
Proof. unfold os_path_join. by destruct (starts_with_slash b). Qed.

Lemma os_path_join_scrape_path_inj b1 b2 :
  os_path_join scrape_path b1 = os_path_join scrape_path b2 -> b1 = b2.
Proof.
  rewrite !os_path_join_scrape_path.
  destruct (starts_with_slash b1) eqn:H1, (starts_with_slash b2) eqn:H2;
    intros H; subst; try done.
  - by apply (inj (String.app _)) in H.
Qed.


Lemma content_path_inj provider_name fmt1 fmt2 :
  content_path provider_name fmt1 = content_path provider_name fmt2 ->
  fmt1 = fmt2.
Proof.
  unfold content_path, content_filename.
  intros H%os_path_join_scrape_path_inj.
  apply (inj (String.app _)) in H. apply (inj (String.app _)) in H.
  by apply string_app_inj_r in H.
Qed.

Lemma last_char_app s t : t <> ""%string -> last_char (s +:+ t) = last_char t.
Proof.
  intros Ht. induction s as [|c s IH]; [done|].
  rewrite string_app_cons. cbn [last_char]. rewrite IH.
  destruct (s +:+ t) eqn:Hst; [|done].
  destruct s; [by destruct t | by rewrite string_app_cons in Hst].
Qed.







(** ** One provider *)

Section Provider.
Context (E : Env).


Lemma write_text_ok filepath content w w' u :
  write_text E filepath content w = (w', Ok u) ->
  exists s, content = PyStr s /\ w' = (put_file filepath s w).1.
Proof.
  unfold write_text, raiseM, bindM.
  destruct (open_for_write E filepath); [intros; simplify_eq/=|].
  destruct content; intros H; simplify_eq/=.
  unfold put_file in H. exists s. by simplify_eq.
Qed.



Lemma write_content_files_other provider_name scrape_result formats cf w w' cf' :
  write_content_files E provider_name scrape_result formats cf w = (w', Ok cf') ->
  scrape_dir w' = scrape_dir w /\ tick w' = tick w /\
  resolve (files w') = resolve (files w) /\
  forall path,
    (forall fmt, fmt ∈ formats ->
       py_truthy (content_of scrape_result fmt) = true ->
       resolve (files w) path
       <> resolve (files w) (content_path provider_name fmt)) ->
    files w' !! path = files w !! path.
Proof.
  revert cf w. induction formats as [|f0 formats IH]; intros cf w Hrun.
  - simpl in Hrun. apply retM_ok in Hrun as [-> _]. done.
  - simpl in Hrun. fold (content_of scrape_result f0) in Hrun.
    destruct (py_truthy (content_of scrape_result f0)) eqn:Ht0.
    + apply bindM_ok in Hrun as (u & w1 & Hw & Hrun).
      apply write_text_ok in Hw as (s & Hs & ->).
      destruct (IH _ _ Hrun) as (Hd & Htk & Hr & Hf). simpl in *.
      split; [done|]. split; [done|]. split; [done|]. intros path Hpath.
      rewrite Hf.
      * rewrite fs_lookup_insert_ne; [done|]. intros Heq.
        eapply (Hpath f0); [apply list_elem_of_here | done | done].
      * intros fmt Hin. apply Hpath. by apply list_elem_of_further.
    + destruct (IH _ _ Hrun) as (Hd & Htk & Hr & Hf).
      split; [done|]. split; [done|]. split; [done|].
      intros path Hpath. apply Hf.
      intros fmt Hin. apply Hpath. by apply list_elem_of_further.
Qed.




Lemma write_content_files_fold provider_name scrape_result formats cf w w' cf' :
  write_content_files E provider_name scrape_result formats cf w = (w', Ok cf') ->
  cf' = fold_left
          (fun cf fmt =>
             if py_truthy (content_of scrape_result fmt)
             then dict_set fmt (PyStr (content_filename provider_name fmt)) cf
             else cf)
          formats cf.
Proof.
  revert cf w. induction formats as [|f0 formats IH]; intros cf w Hrun.
  - simpl in Hrun. by apply retM_ok in Hrun as [_ ->].
  - simpl in Hrun. fold (content_of scrape_result f0) in Hrun. simpl.
    destruct (py_truthy (content_of scrape_result f0)).
    + apply bindM_ok in Hrun as (u & w1 & _ & Hrun). by eapply IH.
    + by eapply IH.
Qed.

End Provider.

Section ProviderRuns.
Context (E : Env).

Lemma app_scrape_run k url formats w :
  app_scrape E k url formats w
  = (mkWorld (scrape_dir w) (files w) (S (tick w))
             (log w ++ [EvScrape k url formats]),
     firecrawl_scrape E (tick w) k url formats).
Proof. reflexivity. Qed.

Lemma success_record_fields provider_name url domain scraped_at formats cf
    title description :
  success_fields provider_name url domain scraped_at formats cf title
    description
    (success_record provider_name url domain scraped_at formats cf title
       description).
Proof. by repeat split. Qed.

Lemma failure_record_fields provider_name url domain scraped_at formats error :
  failure_fields provider_name url domain scraped_at formats error
    (failure_record provider_name url domain scraped_at formats error).
Proof. by repeat split. Qed.

Lemma success_fields_success provider_name url domain scraped_at formats cf
    title description r :
  success_fields provider_name url domain scraped_at formats cf title
    description r ->
  record_success r = true.
Proof.
  intros (_ & Hs & _). destruct r; try done. simpl in *. by rewrite Hs.
Qed.

Lemma failure_fields_success provider_name url domain scraped_at formats error r :
  failure_fields provider_name url domain scraped_at formats error r ->
  record_success r = false.
Proof.
  intros (_ & Hs & _). destruct r; try done. simpl in *. by rewrite Hs.
Qed.

Lemma attempt_record_mono k provider_name url formats t0 t1 t0' t1' r :
  (t0' <= t0)%nat -> (t1 <= t1')%nat ->
  attempt_record E k provider_name url formats t0 t1 r ->
  attempt_record E k provider_name url formats t0' t1' r.
Proof.
  intros H0 H1 (domain & t & Ht & Hdom & Hr).
  exists domain, t. split; [lia|]. split; [done|].
  destruct Hr as [(resp & md & title & desc & Hle & Hr)|(e & t' & Hle & Hr)].
  - left. exists resp, md, title, desc. split; [lia|done].
  - right. exists e, t'. split; [lia|done].
Qed.

Lemma app_scrape_ok k url formats w w0 scrape_result :
  app_scrape E k url formats w = (w0, Ok scrape_result) ->
  firecrawl_scrape E (tick w) k url formats = Ok scrape_result /\
  files w0 = files w.
Proof.
  unfold app_scrape, bindM, next_tick, emit, liftM. simpl.
  intros H. by simplify_eq.
Qed.

Lemma py_ne_int_200 v : py_ne_int v 200 = false -> v = PyInt 200.
Proof.
  destruct v as [|[]|z| | |]; simpl; try done.
  intros H%negb_false_iff%Z.eqb_eq. by subst.
Qed.

(** What a [try] body that ran to its end has done. *)
Lemma process_scrape_result_ok formats provider_name url st scrape_result w w' st' :
  process_scrape_result E formats provider_name url st scrape_result w
    = (w', Ok st') ->
  exists md cf domain d w1 title description,
    dict_get "metadata"%string scrape_result = Some (PyDict md) /\
    dict_get "status_code"%string md = Some (PyInt 200) /\
    write_content_files E provider_name scrape_result formats [] w = (w1, Ok cf) /\
    urlparse_netloc E url = Ok domain /\
    w' = (next_tick w1).1 /\
    fst st = PyDict d /\
    py_get (default (PyDict []) (dict_get "metadata"%string md))
           "title" (PyStr "") = Ok title /\
    py_get (default (PyDict []) (dict_get "metadata"%string md))
           "description" (PyStr "") = Ok description /\
    st' = (PyDict (dict_set provider_name
                     (success_record provider_name url domain
                        (utcnow_isoformat E (tick w1)) formats cf
                        title description) d),
           snd st ++ [provider_name]).
Proof.
  unfold process_scrape_result. intros H.
  apply bindM_ok in H as (md & w0 & [-> Hmd]%liftM_ok & H).
  apply bindM_ok in H as (sc & w0 & [-> Hsc]%liftM_ok & H).
  destruct (py_ne_int sc 200) eqn:Hne.
  { invert_ok H. }
  apply py_ne_int_200 in Hne as ->.
  apply py_get_ok in Hsc as (mdd & -> & Hsc).
  simpl in Hmd.
  destruct (dict_get "metadata"%string scrape_result) as [mdv|] eqn:Hmdv;
    simpl in Hmd; simplify_eq; try done.
  destruct (dict_get "status_code"%string mdd) as [scv|] eqn:Hscv;
    simpl in Hsc; simplify_eq.
  apply bindM_ok in H as (srd & w0 & [-> Hsrd]%liftM_ok & H).
  simpl in Hsrd. rewrite Hmdv in Hsrd. simpl in Hsrd. simplify_eq.
  apply bindM_ok in H as (cf & w1 & Hcf & H).
  apply bindM_ok in H as (domain & w0 & [-> Hdom]%liftM_ok & H).
  apply bindM_ok in H as (scraped_at & w2 & Hnow & H).
  unfold utcnow in Hnow.
  apply bindM_ok in Hnow as (t & w3 & Htick & Hnow).
  apply retM_ok in Hnow as [-> ->].
  unfold next_tick in Htick. simplify_eq.
  apply bindM_ok in H as (tsrc & w0 & [-> Htsrc]%liftM_ok & H).
  apply bindM_ok in H as (title & w0 & [-> Htitle]%liftM_ok & H).
  apply bindM_ok in H as (dsrc & w0 & [-> Hdsrc]%liftM_ok & H).
  apply bindM_ok in H as (desc & w0 & [-> Hdesc]%liftM_ok & H).
  apply bindM_ok in H as (sm & w0 & [-> Hset]%liftM_ok & H).
  apply retM_ok in H as [-> ->].
  apply py_setitem_ok in Hset as (d & Hst & ->).
  simpl in Htsrc, Hdsrc. simplify_eq.
  exists mdd, cf, domain, d, w1, title, desc. done.
Qed.

(** The handler, when it returns, stores a failure record. *)
Lemma scrape_provider_except_ok formats provider_name url st e w w' st' :
  scrape_provider_except E formats provider_name url st e w = (w', Ok st') ->
  exists domain d,
    urlparse_netloc E url = Ok domain /\
    w' = (next_tick w).1 /\
    fst st = PyDict d /\
    st' = (PyDict (dict_set provider_name
                     (failure_record provider_name url domain
                        (utcnow_isoformat E (tick w)) formats (exn_msg e)) d),
           snd st).
Proof.
  unfold scrape_provider_except. intros H.
  apply bindM_ok in H as (domain & w0 & [-> Hdom]%liftM_ok & H).
  apply bindM_ok in H as (scraped_at & w2 & Hnow & H).
  unfold utcnow in Hnow.
  apply bindM_ok in Hnow as (t & w3 & Htick & Hnow).
  apply retM_ok in Hnow as [-> ->].
  unfold next_tick in Htick. simplify_eq.
  apply bindM_ok in H as (sm & w0 & [-> Hset]%liftM_ok & H).
  apply retM_ok in H as [-> ->].
  apply py_setitem_ok in Hset as (d & Hst & ->).
  exists domain, d. done.
Qed.

(** One provider, when neither path of the [try] statement let an
    exception out: exactly one record is stored under the provider's name,
    made from this attempt alone, and the name joins the successes exactly
    when the record is a success record. *)
Lemma scrape_provider_ok k formats provider_name url d acc w w' st' :
  scrape_provider E k formats provider_name url (PyDict d, acc) w = (w', Ok st') ->
  exists r,
    attempt_record E k provider_name url formats (tick w) (tick w') r /\
    st' = (PyDict (dict_set provider_name r d),
           acc ++ if record_success r then [provider_name] else []).
Proof.
  unfold scrape_provider. intros H.
  apply try_except_inv in H as [(a & H & ?)|(w1 & e & Htry & H)]; simplify_eq.
  - unfold scrape_provider_try in H.
    apply bindM_ok in H as (resp & w0 & Happ & H).
    rewrite app_scrape_run in Happ. injection Happ as <- Hresp.
    apply process_scrape_result_ok in H
      as (md & cf & dom & d' & w1 & title & desc
          & Hmd & _ & Hcf & Hdom & -> & Hd & Htitle & Hdesc & ->).
    destruct (write_content_files_other _ _ _ _ _ _ _ _ Hcf)
      as (_ & Htick & _).
    apply write_content_files_fold in Hcf. fold (content_files_of provider_name
      resp formats) in Hcf. subst cf.
    simpl in Hd, Htick. simplify_eq.
    exists (success_record provider_name url dom (utcnow_isoformat E (tick w1))
              formats (content_files_of provider_name resp formats) title desc).
    split; [|reflexivity].
    exists dom, (tick w). split; [done|]. split; [done|]. left.
    exists resp, md, title, desc. simpl. rewrite Htick.
    split_and!; first [done | apply success_record_fields].
  - pose proof Htry as Htry'.
    apply scrape_provider_except_ok in H as (dom & d' & Hdom & -> & Hd & ->).
    simpl in Hd. simplify_eq.
    exists (failure_record provider_name url dom (utcnow_isoformat E (tick w1))
              formats (exn_msg e)).
    split.
    + exists dom, (tick w). split; [done|]. split; [done|]. right.
      exists e, (tick w1). simpl. split; [done|]. split.
      * by exists d', acc, w, w1.
      * apply failure_record_fields.
    + simpl. by rewrite app_nil_r.
Qed.

End ProviderRuns.

(** ** Successful scrapes *)


(** C9: after a successful scrape, the title and description of the
    stored record are the [title] and [description] entries of the
    dictionary stored under the key [metadata] inside the response's
    [metadata] dictionary, and both are the empty string when that inner
    key is missing, whatever the outer dictionary holds under [title] and
    [description]. *)
Theorem title_read_from_nested_metadata E k formats provider_name url st w w' st' :
  scrape_provider_try E k formats provider_name url st w = (w', Ok st') ->
  exists scrape_result md d' r,
    firecrawl_scrape E (tick w) k url formats = Ok scrape_result /\
    dict_get "metadata"%string scrape_result = Some (PyDict md) /\
    st' = (PyDict d', snd st ++ [provider_name]) /\
    dict_get provider_name d' = Some r /\
    field "success" r = Some (PyBool true) /\
    (dict_get "metadata"%string md = None ->
       field "title" r = Some (PyStr "") /\
       field "description" r = Some (PyStr "")) /\
    (forall inner, dict_get "metadata"%string md = Some inner ->
       exists fields, inner = PyDict fields /\
         field "title" r
         = Some (default (PyStr "") (dict_get "title"%string fields)) /\
         field "description" r
         = Some (default (PyStr "") (dict_get "description"%string fields))).
Proof.
  unfold scrape_provider_try. intros H.
  apply bindM_ok in H as (resp & w0 & Happ & H).
  apply app_scrape_ok in Happ as [Hresp _].
  apply process_scrape_result_ok in H
    as (md & cf & dom & d & w1 & title & desc
        & Hmd & _ & _ & _ & -> & Hd & Htitle & Hdesc & ->).
  exists resp, md,
    (dict_set provider_name
       (success_record provider_name url dom (utcnow_isoformat E (tick w1))
          formats cf title desc) d),
    (success_record provider_name url dom (utcnow_isoformat E (tick w1))
       formats cf title desc).
  split_and!; try done.
  - apply dict_get_set_eq.
  - intros Hnone. rewrite Hnone in Htitle, Hdesc. simpl in *. by simplify_eq.
  - intros inner Hinner. rewrite Hinner in Htitle, Hdesc. simpl in *.
    apply py_get_ok in Htitle as (fields & -> & ->).
    apply py_get_ok in Hdesc as (fields' & ? & ->). simplify_eq.
    by exists fields'.
Qed.

(** ** The batch *)


Lemma succeeded_record d provider_name r :
  dict_get provider_name d = Some r ->
  succeeded d provider_name = record_success r.
Proof. unfold succeeded, record_success. by intros ->. Qed.

(** A loop that ran to its end without letting an exception out: the store
    keeps one record per key, holds for each provider of the batch the
    record of this attempt, leaves every other key alone, and the list of
    successes is extended by the providers whose record is a success
    record, in the order of the batch. *)
Lemma scrape_loop_ok E k formats websites d acc w w' st' :
  NoDup websites.*1 ->
  scrape_loop E k formats websites (PyDict d, acc) w = (w', Ok st') ->
  exists d',
    st' = (PyDict d', acc ++ filter (fun p => succeeded d' p) websites.*1) /\
    (NoDup (dict_keys d) -> NoDup (dict_keys d')) /\
    (forall q, q ∉ websites.*1 -> dict_get q d' = dict_get q d) /\
    (forall p u, (p, u) ∈ websites ->
       exists r, dict_get p d' = Some r /\
                 attempt_record E k p u formats (tick w) (tick w') r).
Proof.
  revert d acc w.
  induction websites as [|[p0 u0] websites IH]; intros d acc w Hnd H.
  - simpl in H. apply retM_ok in H as [-> ->]. exists d.
    rewrite app_nil_r. split_and!; try done.
    intros p u Hin. by apply elem_of_nil in Hin.
  - simpl in H. apply bindM_ok in H as (st1 & w1 & Hp & H).
    pose proof (scrape_provider_clock E k formats p0 u0 (PyDict d, acc) w)
      as Hclock1. rewrite Hp in Hclock1.
    pose proof (scrape_loop_clock E k formats websites st1 w1) as Hclock2.
    rewrite H in Hclock2. unfold clock_advances in Hclock1, Hclock2.
    simpl in Hclock1, Hclock2.
    apply scrape_provider_ok in Hp as (r0 & Hr0 & ->).
    apply NoDup_cons in Hnd as [Hp0 Hnd].
    apply IH in H as (d' & -> & Hdup & Hother & Hrec); [|done].
    assert (dict_get p0 d' = Some r0) as Hget0.
    { rewrite Hother by done. apply dict_get_set_eq. }
    exists d'. split_and!.
    + f_equal. rewrite <- app_assoc. f_equal. cbn [fmap list_fmap fst].
      rewrite filter_cons. rewrite (succeeded_record _ _ _ Hget0).
      by destruct (record_success r0).
    + intros Hd. apply Hdup. by apply dict_set_NoDup.
    + intros q Hq. cbn [fmap list_fmap fst] in Hq.
      apply not_elem_of_cons in Hq as [Hne Hq].
      rewrite Hother by done. by apply dict_get_set_ne.
    + intros p u Hin. apply elem_of_cons in Hin as [Heq|Hin].
      * simplify_eq. exists r0. split; [done|].
        eapply attempt_record_mono; [| |exact Hr0]; lia.
      * destruct (Hrec p u Hin) as (r & Hget & Hr). exists r. split; [done|].
        eapply attempt_record_mono; [| |exact Hr]; lia.
Qed.

Lemma load_metadata_ok w w1 v :
  load_metadata w = (w1, Ok v) ->
  files w1 = files w /\ scrape_dir w1 = scrape_dir w /\
  (stored w = StoreAbsent /\ v = PyDict [] \/ stored w = StoreParsed v).
Proof.
  unfold load_metadata, bindM, emit, retM, raiseM.
  destruct (stored w) eqn:Hs; simpl; intros H; simplify_eq; auto.
Qed.

Lemma save_metadata_ok E v w w' u :
  save_metadata E v w = (w', Ok u) ->
  scrape_dir w' = DirPresent (StoreParsed v) /\
  files w' = files w /\
  log w' = log w ++ [EvSaveStore metadata_file v].
Proof.
  unfold save_metadata, raiseM.
  destruct (open_for_write E metadata_file); intros H; by simplify_eq.
Qed.

(** A run of the scrape tool that returned, taken apart. *)
Lemma scrape_websites_ok E websites formats api_key w w' successes :
  scrape_websites E websites formats api_key w = (w', Ok successes) ->
  exists k w0 w1 w2 w3 v0 v,
    resolve_api_key E api_key w = (w0, Ok k) /\
    firecrawl_new E k = None /\
    w1 = (os_makedirs scrape_path w0).1 /\
    load_metadata w1 = (w2, Ok v0) /\
    scrape_loop E k formats websites (v0, []) w2 = (w3, Ok (v, successes)) /\
    save_metadata E v w3 = (w', Ok tt).
Proof.
  unfold scrape_websites. intros H.
  apply bindM_ok in H as (k & w0 & Hk & H).
  apply bindM_ok in H as (app & w0' & Happ & H).
  unfold FirecrawlApp in Happ.
  destruct (firecrawl_new E k) eqn:Hnew; [by unfold raiseM in Happ|].
  apply retM_ok in Happ as [-> ->].
  apply bindM_ok in H as ([] & w1 & Hmk & H).
  apply bindM_ok in H as (v0 & w2 & Hload & H).
  apply bindM_ok in H as ([v s] & w3 & Hloop & H).
  apply bindM_ok in H as ([] & w4 & Hsave & H).
  apply retM_ok in H as [-> ->]. simpl in *.
  exists k, w0, w1, w2, w3, v0, v. split_and!; try done.
  unfold os_makedirs in Hmk. by simplify_eq.
Qed.

Lemma resolve_api_key_stored E api_key w w0 k :
  resolve_api_key E api_key w = (w0, Ok k) ->
  scrape_dir w0 = scrape_dir w /\ files w0 = files w.
Proof.
  unfold resolve_api_key, os_getenv, bindM, emit, retM, raiseM.
  destruct api_key; simpl.
  - intros H. by simplify_eq.
  - destruct (getenv E _); [case_bool_decide|]; intros Hrun; by simplify_eq.
Qed.


Lemma load_metadata_tick w w1 v :
  load_metadata w = (w1, Ok v) -> tick w1 = tick w.
Proof.
  unfold load_metadata, bindM, emit, retM, raiseM.
  destruct (stored w); simpl; intros H; by simplify_eq.
Qed.



Lemma filter_is_scrape_loop_events evs :
  forallb is_write_file evs = true -> filter is_scrape evs = [].
Proof.
  induction evs as [|ev evs IH]; [done|]. simpl.
  intros [Hev Hevs]%andb_prop. rewrite filter_cons, IH by done.
  by destruct ev.
Qed.

Lemma filter_is_scrape_setup evs :
  forallb is_setup evs = true -> filter is_scrape evs = [].
Proof.
  induction evs as [|ev evs IH]; [done|]. simpl.
  intros [Hev Hevs]%andb_prop. rewrite filter_cons, IH by done.
  by destruct ev.
Qed.

Lemma forallb_impl {A} (P Q : A -> bool) l :
  (forall x, P x = true -> Q x = true) ->
  forallb P l = true -> forallb Q l = true.
Proof.
  intros HPQ. induction l as [|x l IH]; [done|]. simpl.
  intros [Hx Hl]%andb_prop. by rewrite (HPQ _ Hx), IH.
Qed.

(** One provider calls the collaborator once, first, and then only writes
    content files. *)
Lemma scrape_provider_trace E k formats provider_name url st w :
  exists evs,
    log (scrape_provider E k formats provider_name url st w).1
      = log w ++ EvScrape k url formats :: evs /\
    forallb is_write_file evs = true.
Proof.
  unfold scrape_provider, try_except, scrape_provider_try.
  unfold bindM at 1.
  destruct (app_scrape E k url formats w) as [w0 r0] eqn:Happ.
  assert (log w0 = log w ++ [EvScrape k url formats]) as Hlog0.
  { unfold app_scrape, bindM, next_tick, emit, liftM in Happ. simpl in Happ.
    by simplify_eq. }
  destruct r0 as [resp|e].
  - pose proof (process_scrape_result_log E is_write_file formats provider_name
                  url st resp (fun _ _ => eq_refl) w0) as (evs1 & Hlog1 & Hevs1).
    destruct (process_scrape_result E formats provider_name url st resp w0)
      as [w1 [st1|e]]; simpl in *.
    + exists evs1. by rewrite Hlog1, Hlog0, <- app_assoc.
    + pose proof (scrape_provider_except_log E is_write_file formats
                    provider_name url st e w1) as (evs2 & Hlog2 & Hevs2).
      exists (evs1 ++ evs2).
      rewrite Hlog2, Hlog1, Hlog0, <- !app_assoc. split; [done|].
      by rewrite forallb_app, Hevs1, Hevs2.
  - pose proof (scrape_provider_except_log E is_write_file formats
                  provider_name url st e w0) as (evs2 & Hlog2 & Hevs2).
    exists evs2. by rewrite Hlog2, Hlog0, <- app_assoc.
Qed.

(** A loop that ran to its end called the collaborator once per provider,
    in the order of the batch. *)
Lemma scrape_loop_trace E k formats websites st w w' st' :
  scrape_loop E k formats websites st w = (w', Ok st') ->
  exists evs,
    log w' = log w ++ evs /\
    forallb is_loop_event evs = true /\
    filter is_scrape evs = scrape_events k formats websites.
Proof.
  revert st w. induction websites as [|[p u] websites IH]; intros st w H.
  - simpl in H. apply retM_ok in H as [-> _]. exists []. by rewrite app_nil_r.
  - simpl in H. apply bindM_ok in H as (st1 & w1 & Hp & H).
    destruct (scrape_provider_trace E k formats p u st w) as (evs1 & Hlog1 & Hevs1).
    rewrite Hp in Hlog1. simpl in Hlog1.
    apply IH in H as (evs2 & Hlog2 & Hevs2 & Hfilter).
    exists (EvScrape k u formats :: evs1 ++ evs2).
    rewrite Hlog2, Hlog1, <- app_assoc. split_and!; [done| |].
    + simpl. rewrite forallb_app, Hevs2, andb_true_r.
      eapply forallb_impl; [|exact Hevs1].
      intros ev Hev. unfold is_loop_event. by rewrite Hev, orb_true_r.
    + rewrite filter_cons. simpl. rewrite filter_app, Hfilter.
      by rewrite filter_is_scrape_loop_events.
Qed.

Lemma resolve_api_key_log E api_key :
  maintains (extends_log is_setup) (resolve_api_key E api_key).
Proof.
  pose proof (emit_log is_setup). unfold resolve_api_key, os_getenv.
  maintains_auto.
Qed.

(** The part of the scrape tool before the metadata file is written. *)
Lemma scrape_websites_before_save E websites formats api_key w :
  let not_save ev := negb (is_save ev) in
  match resolve_api_key E api_key w with
  | (w0, Ok k) =>
      (stored w0 = stored w /\
       exists evs, log w0 = log w ++ evs /\ forallb not_save evs = true) /\
      match load_metadata (os_makedirs scrape_path w0).1 with
      | (w2, Ok v0) =>
          match scrape_loop E k formats websites (v0, []) w2 with
          | (w3, r) =>
              stored w3 = stored w /\
              exists evs, log w3 = log w ++ evs /\
                forallb not_save evs = true /\
                (is_ok r = true ->
                 filter is_scrape evs = scrape_events k formats websites)
          end
      | (w2, Raise e) =>
          stored w2 = stored w /\
          exists evs, log w2 = log w ++ evs /\ forallb not_save evs = true
      end
  | (w0, Raise e) =>
      stored w0 = stored w /\
      exists evs, log w0 = log w ++ evs /\ forallb not_save evs = true
  end.
Proof.
  intros not_save.
  assert (forall evs, forallb is_setup evs = true -> forallb not_save evs = true)
    as Hsetup.
  { intros evs. apply forallb_impl. by intros []. }
  assert (forall evs, forallb is_loop_event evs = true ->
                      forallb not_save evs = true) as Hloop.
  { intros evs. apply forallb_impl. by intros []. }
  pose proof (resolve_api_key_log E api_key w) as (evs0 & Hlog0 & Hevs0).
  assert (stored (resolve_api_key E api_key w).1 = stored w) as Hst0.
  { unfold resolve_api_key, os_getenv, bindM, emit, retM, raiseM.
    destruct api_key; simpl; [done|].
    destruct (getenv E _); [case_bool_decide|]; done. }
  destruct (resolve_api_key E api_key w) as [w0 [k|e]]; cbn [fst snd] in *;
    [|eauto].
  split; [eauto|].
  pose proof (os_makedirs_stored scrape_path w0) as Hst1.
  assert (log (os_makedirs scrape_path w0).1
          = log w0 ++ [EvMakedirs scrape_path]) as Hlog1 by done.
  set (w1 := (os_makedirs scrape_path w0).1) in *.
  pose proof (load_metadata_stored w1) as Hst2.
  pose proof (load_metadata_log is_setup eq_refl w1) as (evs2 & Hlog2 & Hevs2).
  unfold keeps_stored in *.
  destruct (load_metadata w1) as [w2 [v0|e]]; cbn [fst snd] in *.
  - pose proof (scrape_loop_stored E k formats websites (v0, []) w2) as Hst3.
    pose proof (scrape_loop_log E (fun ev => is_loop_event ev) k formats
                  websites (v0, []) (fun _ => eq_refl) (fun _ _ => eq_refl) w2)
      as (evs3 & Hlog3 & Hevs3).
    unfold keeps_stored in *.
    destruct (scrape_loop E k formats websites (v0, []) w2) as [w3 r] eqn:Hrun;
      cbn [fst snd] in *.
    split; [congruence|].
    exists (evs0 ++ [EvMakedirs scrape_path] ++ evs2 ++ evs3).
    split_and!.
    + rewrite Hlog3, Hlog2, Hlog1, Hlog0, <- !app_assoc. done.
    + rewrite !forallb_app, (Hsetup _ Hevs0), (Hsetup _ Hevs2), (Hloop _ Hevs3).
      done.
    + destruct r as [st'|]; [intros _|done].
      apply scrape_loop_trace in Hrun as (evs3' & Hlog3' & _ & Hfilter).
      rewrite Hlog3 in Hlog3'. apply app_inv_head in Hlog3'. subst evs3'.
      rewrite !filter_app, (filter_is_scrape_setup _ Hevs0),
        (filter_is_scrape_setup _ Hevs2). done.
  - split; [congruence|].
    exists (evs0 ++ [EvMakedirs scrape_path] ++ evs2). split.
    + rewrite Hlog2, Hlog1, Hlog0, <- !app_assoc. done.
    + rewrite !forallb_app, (Hsetup _ Hevs0), (Hsetup _ Hevs2). done.
Qed.

(** C7: the loop over the providers, however far it gets, leaves the
    metadata file as it was and logs no write of it; a run of the scrape
    tool that returns has written the metadata file exactly once, as its
    last effect, after one call of the collaborator per provider of the
    batch; a run that raises has not written it. *)
Theorem metadata_file_written_once_at_end E websites formats api_key w :
  let not_save ev := negb (is_save ev) in
  (forall k n st w0,
     stored (scrape_loop E k formats (take n websites) st w0).1 = stored w0 /\
     exists evs,
       log (scrape_loop E k formats (take n websites) st w0).1 = log w0 ++ evs /\
       forallb not_save evs = true) /\
  (forall w' successes,
     scrape_websites E websites formats api_key w = (w', Ok successes) ->
     exists k pre v,
       log w' = log w ++ pre ++ [EvSaveStore metadata_file v] /\
       forallb not_save pre = true /\
       filter is_scrape pre = scrape_events k formats websites /\
       stored w' = StoreParsed v) /\
  (forall w' e,
     scrape_websites E websites formats api_key w = (w', Raise e) ->
     stored w' = stored w /\
     exists evs, log w' = log w ++ evs /\ forallb not_save evs = true).
Proof.
  intros not_save. split_and!.
  - intros k n st w0. split.
    + apply scrape_loop_stored.
    + apply (scrape_loop_log E not_save); done.
  - intros w' successes Hrun.
    pose proof (scrape_websites_before_save E websites formats api_key w) as H.
    apply scrape_websites_ok in Hrun
      as (k & w0 & w1 & w2 & w3 & v0 & v & Hk & _ & -> & Hload & Hloop & Hsave).
    rewrite Hk, Hload, Hloop in H. cbn zeta in H.
    destruct H as (_ & _ & evs & Hlog & Hevs & Hfilter).
    apply save_metadata_ok in Hsave as (Hdir & _ & Hlog').
    exists k, evs, v. split_and!.
    + by rewrite Hlog', Hlog, <- app_assoc.
    + done.
    + by apply Hfilter.
    + unfold stored. by rewrite Hdir.
  - intros w' e Hrun.
    pose proof (scrape_websites_before_save E websites formats api_key w) as H.
    cbn zeta in H. unfold scrape_websites in Hrun. unfold bindM at 1 in Hrun.
    destruct (resolve_api_key E api_key w) as [w0 [k|e0]]; [|by simplify_eq].
    destruct H as [Hnew H].
    unfold bindM at 1 in Hrun. unfold FirecrawlApp in Hrun.
    destruct (firecrawl_new E k);
      [unfold raiseM in Hrun; by simplify_eq|].
    unfold retM at 1 in Hrun.
    unfold bindM at 1 in Hrun.
    destruct (os_makedirs scrape_path w0) as [w1 [[]|e1]] eqn:Hmk;
      [|unfold os_makedirs in Hmk; by simplify_eq].
    assert (w1 = (os_makedirs scrape_path w0).1) as -> by (by rewrite Hmk).
    unfold bindM at 1 in Hrun.
    destruct (load_metadata _) as [w2 [v0|e2]]; [|by simplify_eq].
    unfold bindM at 1 in Hrun.
    destruct (scrape_loop E k formats websites (v0, []) w2) as [w3 [st|e3]].
    + destruct H as (Hst & evs & Hlog & Hevs & _).
      unfold bindM at 1 in Hrun. unfold save_metadata in Hrun.
      destruct (open_for_write E metadata_file); [|by simplify_eq].
      unfold raiseM in Hrun. simplify_eq. eauto.
    + destruct H as (Hst & evs & Hlog & Hevs & _). simplify_eq. eauto.
Qed.

(** ** The credential *)

(** C8: when no credential is passed, the environment variable
    [FIRECRAWL_API_KEY] is read and a non-empty value of it is the
    credential of the run; when the variable is unset or empty the run
    raises the missing-credential error, and reading the variable is its
    only effect: no call of the collaborator, no file, no record. *)
Theorem missing_credential_raised_first E websites formats w :
  let w_read := (emit (EvGetenv "FIRECRAWL_API_KEY") w).1 in
  (forall k, getenv E "FIRECRAWL_API_KEY"%string = Some k -> k <> ""%string ->
     scrape_websites E websites formats None w
     = scrape_websites E websites formats (Some k) w_read) /\
  (getenv E "FIRECRAWL_API_KEY"%string = None \/
   getenv E "FIRECRAWL_API_KEY"%string = Some ""%string ->
     scrape_websites E websites formats None w = (w_read, Raise missing_api_key) /\
     scrape_dir w_read = scrape_dir w /\ files w_read = files w /\
     tick w_read = tick w /\
     log w_read = log w ++ [EvGetenv "FIRECRAWL_API_KEY"]).
Proof.
  intros w_read. split.
  - intros k Hk Hne.
    assert (resolve_api_key E None w = (w_read, Ok k)) as Hres.
    { unfold resolve_api_key, os_getenv, bindM, retM. simpl. rewrite Hk.
      by rewrite bool_decide_eq_false_2. }
    unfold scrape_websites. rewrite (bindM_run _ _ w _ _ Hres).
    by rewrite (bindM_run (resolve_api_key E (Some k)) _ w_read w_read k eq_refl).
  - intros Hk. split; [|done].
    assert (resolve_api_key E None w = (w_read, Raise missing_api_key)) as Hres.
    { unfold resolve_api_key, os_getenv, bindM, retM. simpl.
      by destruct Hk as [-> | ->]. }
    unfold scrape_websites. by rewrite (bindM_raise _ _ w _ _ Hres).
Qed.

(** C10: a credential that is passed, the empty string included, is the
    credential of the run: no missing-credential error is raised for it,
    the environment is not read, every call of the collaborator carries
    that value, an exception of the collaborator's constructor for that
    value is what the run raises, and the run is the same under any other
    table of environment variables. *)
Theorem supplied_credential_passed_through E websites formats k w :
  resolve_api_key E (Some k) w = (w, Ok k) /\
  (exists evs,
     log (scrape_websites E websites formats (Some k) w).1 = log w ++ evs /\
     forallb (fun ev => negb (is_getenv ev) && scrape_uses_key k ev) evs = true) /\
  (forall e, firecrawl_new E k = Some e ->
     scrape_websites E websites formats (Some k) w = (w, Raise e)) /\
  (forall g,
     scrape_websites (with_getenv g E) websites formats (Some k) w
     = scrape_websites E websites formats (Some k) w).
Proof.
  split_and!.
  - done.
  - set (P := fun ev => negb (is_getenv ev) && scrape_uses_key k ev).
    pose proof (os_makedirs_log P scrape_path eq_refl).
    pose proof (load_metadata_log P eq_refl).
    pose proof (fun v => save_metadata_log E P v eq_refl).
    assert (forall st, maintains (extends_log P)
                         (scrape_loop E k formats websites st)).
    { intros st. apply scrape_loop_log; [|done].
      intros u. unfold P. simpl. by rewrite bool_decide_eq_true_2. }
    unfold scrape_websites.
    rewrite (bindM_run (resolve_api_key E (Some k)) _ w w k eq_refl).
    unfold FirecrawlApp. destruct (firecrawl_new E k) as [e|].
    { rewrite (bindM_raise (raiseM e) _ w w e eq_refl). exists [].
      by rewrite app_nil_r. }
    rewrite (bindM_run (retM k) _ w w k eq_refl).
    lazymatch goal with
    | |- exists evs, log (?c w).1 = _ /\ _ =>
        assert (maintains (extends_log P) c) as Hc; [maintains_auto | apply Hc]
    end.
  - intros e Hnew. unfold scrape_websites.
    rewrite (bindM_run (resolve_api_key E (Some k)) _ w w k eq_refl).
    unfold FirecrawlApp. rewrite Hnew.
    by rewrite (bindM_raise (raiseM e) _ w w e eq_refl).
  - intros g. reflexivity.
Qed.

(** ** The lookup *)

Lemma find_matching_entry_first_match identifier items :
  forallb (fun kv => is_dict kv.2) items = true ->
  find_matching_entry identifier items = Ok (first_match identifier items).
Proof.
  induction items as [|[provider_name data] items IH]; [done|].
  simpl. intros [Hdata Hitems]%andb_prop.
  destruct data as [| | | | |d]; try done.
  unfold entry_matches. simpl.
  destruct (bool_decide (identifier = provider_name)); [done|]. simpl.
  destruct (py_eq_str identifier (default PyNone (dict_get "url"%string d)));
    [done|]. simpl.
  destruct (py_eq_str identifier (default PyNone (dict_get "domain"%string d)));
    [done|]. simpl.
  by apply IH.
Qed.

Lemma first_match_skip identifier pre provider_name data post :
  Forall (fun kv => entry_matches identifier kv.1 kv.2 = false) pre ->
  entry_matches identifier provider_name data = true ->
  first_match identifier (pre ++ (provider_name, data) :: post) = Some data.
Proof.
  intros Hpre Hm. induction Hpre as [|[k' v'] pre Hk _ IH]; simpl.
  - by rewrite Hm.
  - simpl in Hk. by rewrite Hk.
Qed.

Lemma first_match_elem_of identifier items data :
  first_match identifier items = Some data ->
  exists provider_name, (provider_name, data) ∈ items.
Proof.
  induction items as [|[k' v'] items IH]; [done|]. simpl.
  destruct (entry_matches identifier k' v').
  - intros ?. simplify_eq. exists k'. apply list_elem_of_here.
  - intros (p & Hin)%IH. exists p. by apply list_elem_of_further.
Qed.

(** Reading the files of a well-formed [content_files] never raises. *)
Lemma read_content_files_total items content w :
  forallb (fun kv => is_str kv.2) items = true ->
  exists w' r, read_content_files items content w = (w', Ok r) /\
               files w' = files w.
Proof.
  revert content w. induction items as [|[fmt filename] items IH];
    intros content w Hstr.
  - by exists w, (Some content).
  - simpl in Hstr. apply andb_prop in Hstr as [Hf Hitems].
    destruct filename as [| | |f| |]; try done. simpl.
    unfold bindM, liftM, read_text, emit, retM. simpl.
    destruct (files w !! os_path_join SCRAPE_DIR f) as [c|]; simpl.
    + edestruct (IH (dict_set fmt (PyStr (universal_newlines c)) content))
        as (w' & r & Hrun & Hfiles); [done|]. rewrite Hrun. by exists w', r.
    + eauto.
Qed.

(** One unreadable file ends the reading with the early return. *)
Lemma read_content_files_missing items content w fmt f :
  forallb (fun kv => is_str kv.2) items = true ->
  (fmt, PyStr f) ∈ items ->
  files w !! os_path_join SCRAPE_DIR f = None ->
  exists w', read_content_files items content w = (w', Ok None).
Proof.
  revert content w. induction items as [|[fmt0 filename] items IH];
    intros content w Hstr Hin Hmissing.
  - by apply elem_of_nil in Hin.
  - simpl in Hstr. apply andb_prop in Hstr as [Hf Hitems].
    destruct filename as [| | |f0| |]; try done. simpl.
    unfold bindM, liftM, read_text, emit, retM. simpl.
    destruct (files w !! os_path_join SCRAPE_DIR f0) as [c|] eqn:Hread;
      simpl; [|eauto].
    apply elem_of_cons in Hin as [Heq|Hin]; [simplify_eq|].
    by apply IH.
Qed.

Lemma lookup_no_match identifier w items :
  scrape_dir w = DirPresent (StoreParsed (PyDict items)) ->
  find_matching_entry identifier items = Ok None ->
  extract_scraped_info_result identifier w
  = (after_listdir w, Ok (NotFound identifier)).
Proof.
  intros Hdir Hfind.
  unfold extract_scraped_info_result.
  erewrite bindM_run; [|unfold os_listdir; rewrite Hdir; reflexivity].
  erewrite bindM_run;
    [|unfold read_metadata, stored; simpl; rewrite Hdir; reflexivity].
  erewrite bindM_run; [|reflexivity].
  erewrite bindM_run; [|unfold liftM; rewrite Hfind; reflexivity].
  unfold after_listdir, emit. cbn [fst scrape_dir files tick log].
  by rewrite Hdir.
Qed.

Lemma lookup_match identifier w items entry :
  scrape_dir w = DirPresent (StoreParsed (PyDict items)) ->
  find_matching_entry identifier items = Ok (Some entry) ->
  extract_scraped_info_result identifier w
  = (content_files <~ liftM (py_get entry "content_files" PyNone) ;;
     if py_truthy content_files then
       files_items <~ liftM (py_items content_files) ;;
       content <~ read_content_files files_items [] ;;
       match content with
       | Some c => retM (Found [("content"%string, PyDict c)])
       | None => retM (NotFound identifier)
       end
     else retM (Found [])) (after_listdir w).
Proof.
  intros Hdir Hfind.
  unfold extract_scraped_info_result.
  erewrite bindM_run; [|unfold os_listdir; rewrite Hdir; reflexivity].
  erewrite bindM_run;
    [|unfold read_metadata, stored; simpl; rewrite Hdir; reflexivity].
  erewrite bindM_run; [|reflexivity].
  erewrite bindM_run; [|unfold liftM; rewrite Hfind; reflexivity].
  unfold after_listdir, emit. cbn [fst scrape_dir files tick log].
  by rewrite Hdir.
Qed.

Lemma extract_scraped_info_render E identifier w :
  (extract_scraped_info E identifier w).2
  = render E <$> (extract_scraped_info_result identifier w).2.
Proof.
  unfold extract_scraped_info, bindM.
  by destruct (extract_scraped_info_result identifier w) as [w' [r|e]].
Qed.

(** Two identifiers that the search resolves to the same record are
    answered alike. *)
Lemma lookup_same_entry id1 id2 w items entry :
  scrape_dir w = DirPresent (StoreParsed (PyDict items)) ->
  find_matching_entry id1 items = Ok (Some entry) ->
  find_matching_entry id2 items = Ok (Some entry) ->
  (extract_scraped_info_result id1 w).1 = (extract_scraped_info_result id2 w).1 /\
  payload <$> (extract_scraped_info_result id1 w).2
    = payload <$> (extract_scraped_info_result id2 w).2 /\
  (forall result,
     (extract_scraped_info_result id2 w).2 = Ok (Found result) ->
     (extract_scraped_info_result id1 w).2 = Ok (Found result)).
Proof.
  intros Hdir H1 H2.
  rewrite (lookup_match _ _ _ _ Hdir H1), (lookup_match _ _ _ _ Hdir H2).
  unfold bindM, liftM.
  destruct (py_get entry "content_files" PyNone) as [cfv|e]; [|done].
  destruct (py_truthy cfv); [|done].
  destruct (py_items cfv) as [cf|e]; [|done].
  destruct (read_content_files cf [] (after_listdir w)) as [w' [[c|]|e]];
    simpl; done.
Qed.

(** C3, as the code has it: the lookup is a linear search in iteration
    order that returns the first record whose provider name, url or domain
    equals the identifier; for a stored record that is itself the first
    match of its provider name, of its url and of its domain, the lookups
    by url and by domain do what the lookup by provider name does: the same
    effects, the same content payload, and the same text whenever a payload
    is returned. *)
Theorem lookup_returns_first_match E w items pre provider_name record post
    url domain :
  scrape_dir w = DirPresent (StoreParsed (PyDict items)) ->
  forallb (fun kv => is_dict kv.2) items = true ->
  items = pre ++ (provider_name, PyDict record) :: post ->
  dict_get "url"%string record = Some (PyStr url) ->
  dict_get "domain"%string record = Some (PyStr domain) ->
  (forall identifier, identifier ∈ [provider_name; url; domain] ->
     Forall (fun kv => entry_matches identifier kv.1 kv.2 = false) pre) ->
  (forall identifier,
     find_matching_entry identifier items = Ok (first_match identifier items)) /\
  (forall identifier, identifier ∈ [url; domain] ->
     (extract_scraped_info_result identifier w).1
       = (extract_scraped_info_result provider_name w).1 /\
     payload <$> (extract_scraped_info_result identifier w).2
       = payload <$> (extract_scraped_info_result provider_name w).2 /\
     (forall result,
        (extract_scraped_info_result provider_name w).2 = Ok (Found result) ->
        (extract_scraped_info E identifier w).2
          = (extract_scraped_info E provider_name w).2)).
Proof.
  intros Hdir Hdicts -> Hurl Hdomain Hfirst.
  assert (forall identifier,
            find_matching_entry identifier
              (pre ++ (provider_name, PyDict record) :: post)
            = Ok (first_match identifier
                    (pre ++ (provider_name, PyDict record) :: post))) as Hfind.
  { intros identifier. by apply find_matching_entry_first_match. }
  split; [done|].
  assert (forall identifier, identifier ∈ [provider_name; url; domain] ->
            find_matching_entry identifier
              (pre ++ (provider_name, PyDict record) :: post)
            = Ok (Some (PyDict record))) as Hrecord.
  { intros identifier Hin. rewrite Hfind. f_equal.
    apply first_match_skip; [by apply Hfirst|].
    unfold entry_matches. rewrite Hurl, Hdomain. simpl.
    apply elem_of_cons in Hin as [->|Hin].
    { by rewrite bool_decide_eq_true_2. }
    apply elem_of_cons in Hin as [->|Hin].
    { by rewrite (bool_decide_eq_true_2 (url = url)), orb_true_r. }
    apply list_elem_of_singleton in Hin as ->.
    by rewrite (bool_decide_eq_true_2 (domain = domain)), !orb_true_r. }
  intros identifier Hin.
  assert (identifier ∈ [provider_name; url; domain]) as Hin'.
  { by apply list_elem_of_further. }
  destruct (lookup_same_entry identifier provider_name w _ _ Hdir
              (Hrecord _ Hin') (Hrecord _ ltac:(apply list_elem_of_here)))
    as (Hw & Hp & Hfound).
  split_and!; [done..|].
  intros result Hresult. rewrite !extract_scraped_info_render.
  by rewrite Hresult, (Hfound _ Hresult).
Qed.

(** C5, as the code has it: the lookup raises [FileNotFoundError] when
    the metadata file does not exist and [ValueError] when the file exists
    but cannot be read or parsed; when the file parses to a mapping from
    provider names to well-formed records, as the scrape tool writes it,
    the lookup returns a text and does not raise. *)
Theorem lookup_raises_without_store E identifier w :
  (stored w = StoreAbsent ->
   exists msg, (extract_scraped_info E identifier w).2
               = Raise (Exn FileNotFoundError msg)) /\
  (forall e, scrape_dir w = DirPresent (StoreUnreadable e) ->
     (extract_scraped_info E identifier w).2
     = Raise (Exn ValueError
                ("Error decoding JSON from metadata file: " +:+ exn_msg e))) /\
  (forall v, scrape_dir w = DirPresent (StoreParsed v) ->
     store_well_formed v = true ->
     exists text, (extract_scraped_info E identifier w).2 = Ok text).
Proof.
  split_and!.
  - unfold stored. intros Hs. rewrite extract_scraped_info_render.
    unfold extract_scraped_info_result, os_listdir, read_metadata, stored, bindM.
    destruct (scrape_dir w) as [|m] eqn:Hdir; simpl; [eauto|].
    rewrite Hdir. subst m. simpl. eauto.
  - intros e Hdir. rewrite extract_scraped_info_render.
    unfold extract_scraped_info_result, os_listdir, read_metadata, stored, bindM.
    rewrite Hdir. simpl. by rewrite Hdir.
  - intros v Hdir Hwf. rewrite extract_scraped_info_render.
    destruct v as [| | | | |items]; try done. simpl in Hwf.
    assert (forallb (fun kv => is_dict kv.2) items = true) as Hdicts.
    { eapply forallb_impl; [|exact Hwf]. intros [k [| | | | |r]]; done. }
    pose proof (find_matching_entry_first_match identifier items Hdicts) as Hfind.
    destruct (first_match identifier items) as [entry|] eqn:Hfirst.
    + apply first_match_elem_of in Hfirst as (p & Hin).
      assert (record_well_formed entry = true) as Hentry.
      { rewrite forallb_forall in Hwf. apply (Hwf (p, entry)).
        by apply list_elem_of_In. }
      rewrite (lookup_match _ _ _ _ Hdir Hfind). unfold bindM, liftM.
      destruct entry as [| | | | |r]; try done. simpl in *.
      destruct (default PyNone (dict_get "content_files"%string r))
        as [| | | | |cf] eqn:Hcf; simpl in *;
        try (apply negb_true_iff in Hentry; rewrite Hentry; simpl; by eauto).
      * eauto.
      * destruct cf as [|kv cf]; [simpl; eauto|]. cbn [py_truthy].
        destruct (read_content_files_total (kv :: cf) [] (after_listdir w) Hentry)
          as (w' & r' & Hrun & _).
        rewrite Hrun. destruct r'; simpl; eauto.
    + rewrite (lookup_no_match _ _ _ Hdir Hfind). simpl. eauto.
Qed.

(** C6: when the matched record has a non-empty [content_files] mapping
    of formats to file names and one of those files cannot be read, the
    lookup returns the not-found message for the identifier, which is what
    it returns when no record matches; it returns no content payload. *)
Theorem unreadable_file_gives_not_found E identifier w items entry cf fmt f :
  scrape_dir w = DirPresent (StoreParsed (PyDict items)) ->
  find_matching_entry identifier items = Ok (Some entry) ->
  py_get entry "content_files" PyNone = Ok (PyDict cf) ->
  forallb (fun kv => is_str kv.2) cf = true ->
  (fmt, PyStr f) ∈ cf ->
  files w !! os_path_join SCRAPE_DIR f = None ->
  (extract_scraped_info_result identifier w).2 = Ok (NotFound identifier) /\
  (extract_scraped_info E identifier w).2 = Ok (not_found_message identifier) /\
  (forall w0 items0,
     scrape_dir w0 = DirPresent (StoreParsed (PyDict items0)) ->
     find_matching_entry identifier items0 = Ok None ->
     (extract_scraped_info E identifier w0).2
     = Ok (not_found_message identifier)).
Proof.
  intros Hdir Hfind Hcf Hstr Hin Hmissing.
  assert ((extract_scraped_info_result identifier w).2 = Ok (NotFound identifier))
    as Hresult.
  { rewrite (lookup_match _ _ _ _ Hdir Hfind). unfold bindM, liftM.
    rewrite Hcf. destruct cf as [|kv cf]; [by apply elem_of_nil in Hin|].
    cbn [py_truthy py_items].
    destruct (read_content_files_missing (kv :: cf) [] (after_listdir w) fmt f
                Hstr Hin Hmissing) as (w' & Hrun).
    by rewrite Hrun. }
  split_and!.
  - done.
  - by rewrite extract_scraped_info_render, Hresult.
  - intros w0 items0 Hdir0 Hfind0.
    by rewrite extract_scraped_info_render, (lookup_no_match _ _ _ Hdir0 Hfind0).
Qed.

(** ** The scenarios *)

Import Scenario.

(** C1, at a batch whose second URL [urlparse] rejects: Firecrawl fails
    for that provider, the handler takes over and calls [urlparse] again,
    and its [ValueError] leaves the batch; no failure record is stored, the
    third provider is never scraped and the metadata file is not written. *)
Theorem handler_exception_leaves_batch :
  firecrawl 2 key "http://[" default_formats
    = Raise (Exn (OtherError "BadRequestError") "Bad Request: invalid URL") /\
  (scrape_websites (env None) batch_with_bad_url default_formats (Some key) fresh).2
    = Raise (Exn ValueError "Invalid IPv6 URL") /\
  stored (scrape_websites (env None) batch_with_bad_url default_formats
            (Some key) fresh).1 = StoreAbsent /\
  filter is_scrape
    (log (scrape_websites (env None) batch_with_bad_url default_formats
            (Some key) fresh).1)
    = [ EvScrape key acme_url default_formats;
        EvScrape key "http://[" default_formats ].
Proof. split_and!; vm_compute; reflexivity. Qed.

(** C3 as stated fails when two providers share a domain: the lookup by
    the second provider's name and the lookup by its domain return
    different payloads. *)
Lemma lookup_by_shared_domain_differs :
  dict_get "globex"%string (store_of shared_domain)
    = Some (shop_record "globex") /\
  (extract_scraped_info_result "globex" shared_domain).2
    = Ok (Found [("content"%string, PyDict [("markdown"%string, PyStr "# Globex")])]) /\
  (extract_scraped_info_result "shop.example.com" shared_domain).2
    = Ok (Found [("content"%string, PyDict [("markdown"%string, PyStr "# Acme")])]).
Proof. split_and!; vm_compute; reflexivity. Qed.

(** C5 as stated fails on a metadata file that parses but is not a
    mapping: the file exists and [json.load] returns a list, and the lookup
    raises [AttributeError]. *)
Lemma lookup_raises_on_array_store :
  stored array_store = StoreParsed (PyList []) /\
  (extract_scraped_info (env None) "acme" array_store).2
    = Raise (Exn AttributeError "'list' object has no attribute 'items'").
Proof. split; vm_compute; reflexivity. Qed.


(** The record of globex, the third of the store, found by its name, its
    url and its domain. *)
Lemma lookup_returns_first_match_witness :
  (forall identifier,
     find_matching_entry identifier (store_of after_batch)
     = Ok (first_match identifier (store_of after_batch))) /\
  (forall identifier,
     identifier ∈ ["https://globex.example.com/"; "globex.example.com"]%string ->
     (extract_scraped_info_result identifier after_batch).1
       = (extract_scraped_info_result "globex" after_batch).1 /\
     payload <$> (extract_scraped_info_result identifier after_batch).2
       = payload <$> (extract_scraped_info_result "globex" after_batch).2 /\
     (forall result,
        (extract_scraped_info_result "globex" after_batch).2 = Ok (Found result) ->
        (extract_scraped_info (env None) identifier after_batch).2
          = (extract_scraped_info (env None) "globex" after_batch).2)).
Proof.
  apply (lookup_returns_first_match (env None) after_batch
           (store_of after_batch) (take 2 (store_of after_batch)) "globex"
           (match dict_get "globex"%string (store_of after_batch) with
            | Some (PyDict r) => r
            | _ => []
            end)
           [] "https://globex.example.com/" "globex.example.com").
  - vm_compute. reflexivity.
  - vm_compute. reflexivity.
  - vm_compute. reflexivity.
  - vm_compute. reflexivity.
  - vm_compute. reflexivity.
  - intros identifier Hin.
    repeat (apply elem_of_cons in Hin as [->|Hin]);
      [..|by apply elem_of_nil in Hin]; vm_compute; repeat constructor.
Defined.



(** The scrape of acme, whose title sits directly on the metadata object:
    the recorded title is empty. *)
Lemma title_read_from_nested_metadata_witness :
  (exists scrape_result md d' r,
    firecrawl_scrape (env None) (tick fresh) key acme_url default_formats
      = Ok scrape_result /\
    dict_get "metadata"%string scrape_result = Some (PyDict md) /\
    (PyDict [ ("acme"%string,
               PyDict [ ("provider_name", PyStr "acme");
                        ("url", PyStr "https://acme.example.com/page");
                        ("domain", PyStr "acme.example.com");
                        ("scraped_at", PyStr "2025-10-23T00:44:59.000001");
                        ("formats", PyList [PyStr "markdown"; PyStr "html"]);
                        ("success", PyBool true);
                        ("content_files",
                         PyDict [ ("markdown", PyStr "acme_markdown.txt");
                                  ("html", PyStr "acme_html.txt") ]);
                        ("title", PyStr "");
                        ("description", PyStr "") ]%string) ],
     ["acme"%string])
    = (PyDict d', (PyDict [], @nil string).2 ++ ["acme"%string]) /\
    dict_get "acme"%string d' = Some r /\
    field "success" r = Some (PyBool true) /\
    (dict_get "metadata"%string md = None ->
       field "title" r = Some (PyStr "") /\
       field "description" r = Some (PyStr "")) /\
    (forall inner, dict_get "metadata"%string md = Some inner ->
       exists fields, inner = PyDict fields /\
         field "title" r
         = Some (default (PyStr "") (dict_get "title"%string fields)) /\
         field "description" r
         = Some (default (PyStr "") (dict_get "description"%string fields)))) /\
  firecrawl_scrape (env None) 0 key acme_url default_formats
  = Ok [ ("markdown", PyStr "# Acme");
         ("html", PyStr "<h1>Acme</h1>");
         ("metadata", PyDict [ ("title", PyStr "Acme");
                               ("status_code", PyInt 200) ]) ]%string /\
  (scrape_provider_try nested_env key default_formats "acme" acme_url
     (PyDict [], []) fresh).2
  = Ok (PyDict [ ("acme"%string,
                  PyDict [ ("provider_name", PyStr "acme");
                           ("url", PyStr "https://acme.example.com/page");
                           ("domain", PyStr "acme.example.com");
                           ("scraped_at", PyStr "2025-10-23T00:44:59.000001");
                           ("formats", PyList [PyStr "markdown"; PyStr "html"]);
                           ("success", PyBool true);
                           ("content_files",
                            PyDict [ ("markdown", PyStr "acme_markdown.txt") ]);
                           ("title", PyStr "Acme Corp");
                           ("description", PyStr "") ]%string) ],
        ["acme"%string]).
Proof.
  split.
  - apply (title_read_from_nested_metadata (env None) key default_formats
             "acme" acme_url (PyDict [], []) fresh
             (scrape_provider_try (env None) key default_formats "acme"
                acme_url (PyDict [], []) fresh).1).
    vm_compute. reflexivity.
  - split_and!; vm_compute; reflexivity.
Defined.

(** The lookup of acme after its html file was deleted. *)
Lemma unreadable_file_gives_not_found_witness :
  (extract_scraped_info_result "acme" html_deleted).2 = Ok (NotFound "acme") /\
  (extract_scraped_info (env None) "acme" html_deleted).2
    = Ok (not_found_message "acme") /\
  (forall w0 items0,
     scrape_dir w0 = DirPresent (StoreParsed (PyDict items0)) ->
     find_matching_entry "acme" items0 = Ok None ->
     (extract_scraped_info (env None) "acme" w0).2
     = Ok (not_found_message "acme")).
Proof.
  apply (unreadable_file_gives_not_found (env None) "acme" html_deleted
           (store_of html_deleted)
           (default PyNone (dict_get "acme"%string (store_of html_deleted)))
           [ ("markdown"%string, PyStr "acme_markdown.txt");
             ("html"%string, PyStr "acme_html.txt") ]
           "html" "acme_html.txt").
  - vm_compute. reflexivity.
  - vm_compute. reflexivity.
  - vm_compute. reflexivity.
  - vm_compute. reflexivity.
  - apply list_elem_of_further, list_elem_of_here.
  - vm_compute. reflexivity.
Defined.

(** The batch of three providers: one write of the metadata file, last. *)
Lemma metadata_file_written_once_at_end_witness :
  exists k pre v,
    log after_batch = log fresh ++ pre ++ [EvSaveStore metadata_file v] /\
    forallb (fun ev => negb (is_save ev)) pre = true /\
    filter is_scrape pre = scrape_events k default_formats batch /\
    stored after_batch = StoreParsed v.
Proof.
  destruct (metadata_file_written_once_at_end (env None) batch default_formats
              (Some key) fresh) as (_ & Hreturns & _).
  apply (Hreturns after_batch ["acme"; "globex"]%string).
  vm_compute. reflexivity.
Defined.

(** No credential is passed: with the variable set the run is the run with
    that key, with the variable unset the run raises before anything else. *)
Lemma missing_credential_raised_first_witness :
  scrape_websites (env (Some key)) batch default_formats None fresh
    = scrape_websites (env (Some key)) batch default_formats (Some key)
        (emit (EvGetenv "FIRECRAWL_API_KEY") fresh).1 /\
  scrape_websites (env None) batch default_formats None fresh
    = ((emit (EvGetenv "FIRECRAWL_API_KEY") fresh).1, Raise missing_api_key).
Proof.
  split.
  - destruct (missing_credential_raised_first (env (Some key)) batch
                default_formats fresh) as [Hset _].
    apply Hset; [reflexivity | discriminate].
  - destruct (missing_credential_raised_first (env None) batch
                default_formats fresh) as [_ Hunset].
    apply Hunset. left. reflexivity.
Defined.

(** The three cases of the lookup: no directory, an unreadable metadata
    file, and the store that the batch wrote. *)
Lemma lookup_raises_without_store_witness :
  (exists msg, (extract_scraped_info (env None) "acme" fresh).2
               = Raise (Exn FileNotFoundError msg)) /\
  (extract_scraped_info (env None) "acme"
     (mkWorld (DirPresent (StoreUnreadable
                 (Exn (OtherError "JSONDecodeError")
                      "Expecting value: line 1 column 1 (char 0)")))
              ∅ 0 [])).2
    = Raise (Exn ValueError
               ("Error decoding JSON from metadata file: "
                  +:+ "Expecting value: line 1 column 1 (char 0)")) /\
  (exists text, (extract_scraped_info (env None) "acme" after_batch).2 = Ok text).
Proof.
  split_and!.
  - destruct (lookup_raises_without_store (env None) "acme" fresh)
      as (Habsent & _ & _).
    apply Habsent. reflexivity.
  - match goal with
    | |- (extract_scraped_info _ _ ?w).2 = _ =>
        destruct (lookup_raises_without_store (env None) "acme" w)
          as (_ & Hunreadable & _)
    end.
    apply (Hunreadable (Exn (OtherError "JSONDecodeError")
                          "Expecting value: line 1 column 1 (char 0)")).
    reflexivity.
  - destruct (lookup_raises_without_store (env None) "acme" after_batch)
      as (_ & _ & Hparsed).
    apply (Hparsed (PyDict (store_of after_batch))); vm_compute; reflexivity.
Defined.

(** ** What the batch absorbs *)

(** A provider whose URL [urlparse] accepts never lets an exception out:
    whatever the [try] body raised, the handler stores a failure record. *)
Lemma scrape_provider_returns E k formats provider_name url d acc w :
  is_ok (urlparse_netloc E url) = true ->
  exists w' st',
    scrape_provider E k formats provider_name url (PyDict d, acc) w = (w', Ok st').
Proof.
  intros Hurl. unfold scrape_provider, try_except.
  destruct (scrape_provider_try E k formats provider_name url (PyDict d, acc) w)
    as [w1 [st1|e]]; [eauto|].
  unfold scrape_provider_except, utcnow, bindM, liftM, next_tick, retM.
  destruct (urlparse_netloc E url); [|done]. simpl. eauto.
Qed.

Lemma scrape_loop_returns E k formats websites d acc w :
  (forall p u, (p, u) ∈ websites -> is_ok (urlparse_netloc E u) = true) ->
  exists w' st',
    scrape_loop E k formats websites (PyDict d, acc) w = (w', Ok st').
Proof.
  revert d acc w. induction websites as [|[p u] websites IH];
    intros d acc w Hurls.
  - simpl. unfold retM. eauto.
  - simpl.
    destruct (scrape_provider_returns E k formats p u d acc w) as (w1 & st1 & Hp).
    { apply (Hurls p u), list_elem_of_here. }
    rewrite (bindM_run _ _ _ _ _ Hp).
    apply scrape_provider_ok in Hp as (r & _ & ->).
    apply IH. intros p' u' Hin. apply (Hurls p' u').
    by apply list_elem_of_further.
Qed.

(** X1: the batch, when [urlparse] accepts every URL, the store is a mapping
    and the collaborator and the metadata file can be opened: the run
    returns, whatever the collaborator does for each provider.  The
    collaborator was called once for every provider, in the order of the
    batch; the store then holds, for every provider of the batch, the
    record of its attempt in this run, with the fields of its variant (the
    response's content files, title and description, or the text of the
    exception of the attempt); and the returned list is the list of the
    providers with a success record, in the order of the batch. *)
Theorem batch_absorbs_provider_failures E websites formats k w d :
  NoDup websites.*1 ->
  (forall p u, (p, u) ∈ websites -> is_ok (urlparse_netloc E u) = true) ->
  firecrawl_new E k = None ->
  open_for_write E metadata_file = None ->
  (stored w = StoreAbsent /\ d = []) \/ stored w = StoreParsed (PyDict d) ->
  exists w' d' pre,
    scrape_websites E websites formats (Some k) w
      = (w', Ok (filter (fun p => succeeded d' p) websites.*1)) /\
    stored w' = StoreParsed (PyDict d') /\
    log w' = log w ++ pre ++ [EvSaveStore metadata_file (PyDict d')] /\
    filter is_scrape pre = scrape_events k formats websites /\
    (forall p u, (p, u) ∈ websites ->
       exists r, dict_get p d' = Some r /\
                 attempt_record E k p u formats (tick w) (tick w') r).
Proof.
  intros Hnd Hurls Hnew Hopen Hstored.
  set (w1 := (os_makedirs scrape_path w).1).
  assert (load_metadata w1 = ((load_metadata w1).1, Ok (PyDict d))) as Hload.
  { assert (stored w1 = stored w) as Hs by apply os_makedirs_stored.
    unfold load_metadata, bindM, emit, retM. rewrite Hs.
    destruct Hstored as [[-> ->]| ->]; done. }
  destruct (scrape_loop_returns E k formats websites d [] (load_metadata w1).1
              Hurls) as (w3 & st & Hloop).
  pose proof (scrape_websites_before_save E websites formats (Some k) w) as Hb.
  cbn [resolve_api_key retM] in Hb. fold w1 in Hb.
  rewrite Hload, Hloop in Hb. destruct Hb as (_ & _ & pre & Hlog & _ & Hpre).
  pose proof (load_metadata_tick _ _ _ Hload) as Htick.
  destruct (scrape_loop_ok _ _ _ _ _ _ _ _ _ Hnd Hloop)
    as (d' & -> & _ & _ & Hrec).
  exists (save_metadata E (PyDict d') w3).1, d', pre. split_and!.
  - unfold scrape_websites.
    rewrite (bindM_run (resolve_api_key E (Some k)) _ w w k eq_refl).
    unfold FirecrawlApp. rewrite Hnew.
    rewrite (bindM_run (retM k) _ w w k eq_refl).
    rewrite (bindM_run (os_makedirs scrape_path) _ w w1 tt eq_refl).
    rewrite (bindM_run _ _ _ _ _ Hload), (bindM_run _ _ _ _ _ Hloop).
    unfold bindM, save_metadata, retM. rewrite Hopen. done.
  - unfold save_metadata. rewrite Hopen. done.
  - unfold save_metadata. rewrite Hopen. simpl. by rewrite Hlog, <- app_assoc.
  - by apply Hpre.
  - intros p u Hin. destruct (Hrec p u Hin) as (r & Hget & Hr).
    exists r. split; [done|]. unfold save_metadata. rewrite Hopen.
    cbn [fst tick]. rewrite Htick in Hr. exact Hr.
Qed.

(** ** The shape of the stores that the scrape tool writes *)

Lemma dict_set_forallb {V} (P : string * V -> bool) k v (d : list (string * V)) :
  P (k, v) = true -> forallb P d = true -> forallb P (dict_set k v d) = true.
Proof.
  intros Hkv. induction d as [|[k' v'] d IH]; simpl.
  - by rewrite Hkv.
  - intros [Hk' Hd]%andb_prop. destruct (decide (k = k')); simpl.
    + by rewrite Hkv, Hd.
    + by rewrite Hk', IH.
Qed.

Lemma write_content_files_names E provider_name scrape_result formats cf w w' cf' :
  write_content_files E provider_name scrape_result formats cf w = (w', Ok cf') ->
  forallb (fun kv => is_str kv.2) cf = true ->
  forallb (fun kv => is_str kv.2) cf' = true.
Proof.
  revert cf w. induction formats as [|f0 formats IH]; intros cf w Hrun Hcf.
  - simpl in Hrun. apply retM_ok in Hrun as [_ ->]. done.
  - simpl in Hrun. destruct (py_truthy _).
    + apply bindM_ok in Hrun as (u & w1 & _ & Hrun).
      eapply IH; [exact Hrun|]. by apply dict_set_forallb.
    + by eapply IH.
Qed.

Lemma scrape_provider_well_formed E k formats provider_name url d acc w w' st' :
  scrape_provider E k formats provider_name url (PyDict d, acc) w = (w', Ok st') ->
  store_well_formed (PyDict d) = true ->
  store_well_formed st'.1 = true.
Proof.
  unfold scrape_provider. intros H Hd.
  apply try_except_inv in H as [(a & H & ?)|(w1 & e & _ & H)]; simplify_eq.
  - unfold scrape_provider_try in H.
    apply bindM_ok in H as (resp & w0 & _ & H).
    apply process_scrape_result_ok in H
      as (md & cf & dom & d' & w1 & title & desc
          & _ & _ & Hcf & _ & _ & Hd' & _ & _ & ->).
    simpl in Hd'. simplify_eq. simpl. apply dict_set_forallb; [|done].
    simpl. by eapply write_content_files_names.
  - apply scrape_provider_except_ok in H as (dom & d' & _ & _ & Hd' & ->).
    simpl in Hd'. simplify_eq. simpl. by apply dict_set_forallb.
Qed.

Lemma scrape_loop_well_formed E k formats websites d acc w w' st' :
  scrape_loop E k formats websites (PyDict d, acc) w = (w', Ok st') ->
  store_well_formed (PyDict d) = true ->
  store_well_formed st'.1 = true.
Proof.
  revert d acc w. induction websites as [|[p u] websites IH];
    intros d acc w H Hd.
  - simpl in H. apply retM_ok in H as [_ ->]. done.
  - simpl in H. apply bindM_ok in H as (st1 & w1 & Hp & H).
    pose proof (scrape_provider_well_formed _ _ _ _ _ _ _ _ _ _ Hp Hd) as Hst1.
    apply scrape_provider_ok in Hp as (r & _ & ->). by eapply IH.
Qed.

(** X2: the scrape tool, run on no store or on a well-formed one, leaves a
    well-formed store: the stores that the lookup never raises on are the
    stores that the scrape tool writes. *)
Theorem scrape_writes_well_formed_store E websites formats api_key w w' successes :
  stored w = StoreAbsent \/
    (exists v, stored w = StoreParsed v /\ store_well_formed v = true) ->
  scrape_websites E websites formats api_key w = (w', Ok successes) ->
  exists v', stored w' = StoreParsed v' /\ store_well_formed v' = true.
Proof.
  intros Hstored H.
  apply scrape_websites_ok in H
    as (k & w0 & w1 & w2 & w3 & v0 & v & Hk & _ & -> & Hload & Hloop & Hsave).
  apply resolve_api_key_stored in Hk as [Hdir0 _].
  apply load_metadata_ok in Hload as (_ & _ & Hv0).
  assert (stored (os_makedirs scrape_path w0).1 = stored w) as Hs.
  { unfold stored. simpl. rewrite Hdir0. by destruct (scrape_dir w). }
  rewrite Hs in Hv0.
  assert (store_well_formed v0 = true) as Hwf0.
  { destruct Hstored as [Hw|(v1 & Hw & Hwf)], Hv0 as [[Hv ->]|Hv];
      try congruence; try done. }
  destruct v0 as [| | | | |d]; try done.
  apply scrape_loop_well_formed in Hloop; [|done].
  apply save_metadata_ok in Hsave as (Hdir' & _ & _).
  exists v. split; [|done]. unfold stored. by rewrite Hdir'.
Qed.

(** The batch of three providers, of which Firecrawl fails the second. *)
Lemma batch_absorbs_provider_failures_witness :
  (exists w' d' pre,
    scrape_websites (env None) batch default_formats (Some key) fresh
      = (w', Ok (filter (fun p => succeeded d' p) batch.*1)) /\
    stored w' = StoreParsed (PyDict d') /\
    log w' = log fresh ++ pre ++ [EvSaveStore metadata_file (PyDict d')] /\
    filter is_scrape pre = scrape_events key default_formats batch /\
    (forall p u, (p, u) ∈ batch ->
       exists r, dict_get p d' = Some r /\
                 attempt_record (env None) key p u default_formats
                   (tick fresh) (tick w') r)) /\
  (scrape_websites (env None) batch default_formats (Some key) fresh).2
  = Ok ["acme"; "globex"]%string /\
  dict_get "nowhere"%string
    (store_of (scrape_websites (env None) batch default_formats (Some key)
                 fresh).1)
  = Some (PyDict [ ("provider_name", PyStr "nowhere");
                   ("url", PyStr "http://nowhere.example.com/x");
                   ("domain", PyStr "nowhere.example.com");
                   ("scraped_at", PyStr "2025-10-23T00:44:59.000003");
                   ("formats", PyList [PyStr "markdown"; PyStr "html"]);
                   ("success", PyBool false);
                   ("error", PyStr "Bad Request: invalid URL") ]%string) /\
  dict_get "globex"%string
    (store_of (scrape_websites (env None) batch default_formats (Some key)
                 fresh).1)
  = Some (PyDict [ ("provider_name", PyStr "globex");
                   ("url", PyStr "https://globex.example.com/");
                   ("domain", PyStr "globex.example.com");
                   ("scraped_at", PyStr "2025-10-23T00:44:59.000005");
                   ("formats", PyList [PyStr "markdown"; PyStr "html"]);
                   ("success", PyBool true);
                   ("content_files",
                    PyDict [ ("markdown", PyStr "globex_markdown.txt") ]);
                   ("title", PyStr "");
                   ("description", PyStr "") ]%string).
Proof.
  split.
  - apply (batch_absorbs_provider_failures (env None) batch default_formats
             key fresh []).
    + by apply (bool_decide_unpack _).
    + intros p u Hin.
      repeat (apply elem_of_cons in Hin as [Heq|Hin]; [by simplify_eq|]).
      by apply elem_of_nil in Hin.
    + reflexivity.
    + reflexivity.
    + left. done.
  - split_and!; vm_compute; reflexivity.
Defined.

(** The store that the batch wrote into an empty directory. *)
Lemma scrape_writes_well_formed_store_witness :
  exists v', stored after_batch = StoreParsed v' /\ store_well_formed v' = true.
Proof.
  apply (scrape_writes_well_formed_store (env None) batch default_formats
           (Some key) fresh after_batch ["acme"; "globex"]%string).
  - left. reflexivity.
  - vm_compute. reflexivity.
Defined.

(** ** A metadata file that cannot be read *)

(** X3: a metadata file that exists but cannot be read or parsed makes the
    scrape tool raise the exception of [open] or [json.load] itself, after
    the directory was made and before any provider is scraped; the file
    and the content files are left as they are. *)
Theorem unreadable_store_stops_scrape E websites formats k w e :
  scrape_dir w = DirPresent (StoreUnreadable e) ->
  firecrawl_new E k = None ->
  scrape_websites E websites formats (Some k) w
  = (mkWorld (scrape_dir w) (files w) (tick w)
             (log w ++ [EvMakedirs scrape_path; EvLoadStore metadata_file]),
     Raise e).
Proof.
  intros Hdir Hnew. unfold scrape_websites.
  rewrite (bindM_run (resolve_api_key E (Some k)) _ w w k eq_refl).
  unfold FirecrawlApp. rewrite Hnew.
  rewrite (bindM_run (retM k) _ w w k eq_refl).
  rewrite (bindM_run (os_makedirs scrape_path) _ w _ tt eq_refl).
  erewrite bindM_raise; [reflexivity|].
  unfold load_metadata, stored. simpl. rewrite Hdir.
  unfold bindM, emit, raiseM. simpl. by rewrite <- app_assoc.
Qed.

(** ** The empty batch *)

(** X4: a batch without providers still makes the directory and writes
    the metadata file: an empty mapping when there was no file, the loaded
    value otherwise; it returns the empty list, calls the collaborator for
    no URL and leaves the content files alone; a lookup after it on a
    directory that had no metadata file answers with the not-found message
    instead of raising. *)
Theorem empty_batch_writes_store E formats k w :
  firecrawl_new E k = None ->
  open_for_write E metadata_file = None ->
  (forall e, stored w <> StoreUnreadable e) ->
  let run := scrape_websites E [] formats (Some k) w in
  run.2 = Ok [] /\
  scrape_dir run.1
    = DirPresent (StoreParsed (match stored w with
                               | StoreParsed v => v
                               | _ => PyDict []
                               end)) /\
  files run.1 = files w /\
  filter is_scrape (log run.1) = filter is_scrape (log w) /\
  (stored w = StoreAbsent ->
   forall identifier,
     (extract_scraped_info_result identifier run.1).2
     = Ok (NotFound identifier)).
Proof.
  intros Hnew Hopen Hreadable run.
  assert (run = (mkWorld
                   (DirPresent (StoreParsed (match stored w with
                                             | StoreParsed v => v
                                             | _ => PyDict []
                                             end)))
                   (files w) (tick w)
                   (log w ++ [EvMakedirs scrape_path]
                      ++ match stored w with
                         | StoreParsed v => [EvLoadStore metadata_file]
                         | _ => []
                         end
                      ++ [EvSaveStore metadata_file
                            (match stored w with
                             | StoreParsed v => v
                             | _ => PyDict []
                             end)]),
                 Ok [])) as Hrun.
  { unfold run, scrape_websites.
    rewrite (bindM_run (resolve_api_key E (Some k)) _ w w k eq_refl).
    unfold FirecrawlApp. rewrite Hnew.
    rewrite (bindM_run (retM k) _ w w k eq_refl).
    rewrite (bindM_run (os_makedirs scrape_path) _ w _ tt eq_refl).
    unfold bindM, load_metadata, save_metadata, emit, retM, stored in *.
    rewrite Hopen. simpl.
    destruct (scrape_dir w) as [|[|e|v]] eqn:Hst; simpl.
    - by rewrite <- !app_assoc.
    - by rewrite <- !app_assoc.
    - by destruct (Hreadable e).
    - by rewrite <- !app_assoc. }
  rewrite Hrun. simpl. split_and!; try done.
  - rewrite !filter_app.
    destruct (stored w); simpl; by rewrite !filter_cons, ?filter_nil, ?app_nil_r.
  - intros Hst identifier. rewrite Hst.
    erewrite lookup_no_match; [done| |]; done.
Qed.

(** ** The lookup reads only *)

Lemma reads_disk_only_ret {A} (a : A) : reads_disk_only (retM a).
Proof. intros w1 w2 H. split; [exact H | reflexivity]. Qed.

Lemma reads_disk_only_raise {A} e : reads_disk_only (@raiseM A e).
Proof. intros w1 w2 H. split; [exact H | reflexivity]. Qed.

Lemma reads_disk_only_lift {A} (c : exc A) : reads_disk_only (liftM c).
Proof. intros w1 w2 H. split; [exact H | reflexivity]. Qed.

Lemma reads_disk_only_emit ev : reads_disk_only (emit ev).
Proof. intros w1 w2 H. split; [exact H | reflexivity]. Qed.

Lemma reads_disk_only_bind {A B} (c : M A) (k : A -> M B) :
  reads_disk_only c -> (forall a, reads_disk_only (k a)) ->
  reads_disk_only (bindM c k).
Proof.
  intros Hc Hk w1 w2 Hw. unfold bindM.
  destruct (Hc w1 w2 Hw) as [Hw' Hr].
  destruct (c w1) as [w1' [a1|e1]], (c w2) as [w2' [a2|e2]];
    simpl in *; simplify_eq; [by apply Hk | done].
Qed.

Lemma reads_disk_only_listdir path : reads_disk_only (os_listdir path).
Proof.
  intros w1 w2 [Hd Hf]. unfold os_listdir, same_disk, bindM, emit, raiseM.
  rewrite <- Hd. destruct (scrape_dir w1) eqn:H1; simpl; repeat split; congruence.
Qed.

Lemma reads_disk_only_read_metadata : reads_disk_only read_metadata.
Proof.
  intros w1 w2 [Hd Hf].
  unfold read_metadata, stored, same_disk, bindM, emit, raiseM, retM.
  rewrite <- Hd.
  destruct (scrape_dir w1) as [|[]] eqn:H1; simpl; repeat split; congruence.
Qed.

Lemma reads_disk_only_read_text filepath : reads_disk_only (read_text filepath).
Proof.
  intros w1 w2 [Hd Hf]. unfold read_text, same_disk, bindM, emit, retM.
  simpl. by rewrite Hd, Hf.
Qed.

Lemma reads_disk_only_read_content_files items content :
  reads_disk_only (read_content_files items content).
Proof.
  revert content. induction items as [|[fmt filename] items IH];
    intros content; simpl.
  - apply reads_disk_only_ret.
  - apply reads_disk_only_bind; [apply reads_disk_only_lift|]. intros filepath.
    apply reads_disk_only_bind; [apply reads_disk_only_read_text|].
    intros [c|]; [apply IH | apply reads_disk_only_ret].
Qed.

Lemma reads_disk_only_lookup identifier :
  reads_disk_only (extract_scraped_info_result identifier).
Proof.
  unfold extract_scraped_info_result.
  apply reads_disk_only_bind; [apply reads_disk_only_listdir|]. intros _.
  apply reads_disk_only_bind; [apply reads_disk_only_read_metadata|]. intros v.
  apply reads_disk_only_bind; [apply reads_disk_only_lift|]. intros items.
  apply reads_disk_only_bind; [apply reads_disk_only_lift|].
  intros [entry|]; [|apply reads_disk_only_ret].
  apply reads_disk_only_bind; [apply reads_disk_only_lift|]. intros cf.
  destruct (py_truthy cf); [|apply reads_disk_only_ret].
  apply reads_disk_only_bind; [apply reads_disk_only_lift|]. intros files_items.
  apply reads_disk_only_bind; [apply reads_disk_only_read_content_files|].
  intros [c|]; apply reads_disk_only_ret.
Qed.

#[global] Instance untouched_preorder : PreOrder untouched.
Proof.
  split.
  - by intros w.
  - intros w1 w2 w3 (? & ? & ?) (? & ? & ?). unfold untouched. split_and!; congruence.
Qed.

Lemma emit_untouched ev : maintains untouched (emit ev).
Proof. by intros w. Qed.

Lemma os_listdir_untouched path : maintains untouched (os_listdir path).
Proof. intros w. unfold os_listdir. by destruct (scrape_dir w). Qed.

Lemma read_metadata_untouched : maintains untouched read_metadata.
Proof. intros w. unfold read_metadata. by destruct (stored w). Qed.

Lemma read_text_untouched filepath : maintains untouched (read_text filepath).
Proof. by intros w. Qed.

Lemma read_content_files_untouched items content :
  maintains untouched (read_content_files items content).
Proof.
  pose proof read_text_untouched.
  revert content. induction items as [|[fmt filename] items IH];
    intros content; simpl; maintains_auto.
Qed.

Lemma os_listdir_lookup_log path : maintains (extends_log is_lookup_event) (os_listdir path).
Proof.
  intros w. unfold os_listdir. destruct (scrape_dir w); by exists [EvListdir path].
Qed.

Lemma read_metadata_lookup_log : maintains (extends_log is_lookup_event) read_metadata.
Proof.
  intros w. unfold read_metadata.
  destruct (stored w); [exists []; simpl; by rewrite app_nil_r | |];
    by exists [EvLoadStore metadata_file].
Qed.

Lemma read_text_lookup_log filepath :
  maintains (extends_log is_lookup_event) (read_text filepath).
Proof. intros w. by exists [EvReadFile filepath]. Qed.

Lemma read_content_files_lookup_log items content :
  maintains (extends_log is_lookup_event) (read_content_files items content).
Proof.
  pose proof read_text_lookup_log.
  revert content. induction items as [|[fmt filename] items IH];
    intros content; simpl; maintains_auto.
Qed.

(** X5: the lookup never writes: whether it returns or raises, the
    directory, the metadata file, the content files and the clock are as
    before, and its only effects are listing the directory, loading the
    metadata file and reading content files; a lookup made after it gives
    the answer it would have given before it. *)
Theorem lookup_reads_only E identifier w :
  let w' := (extract_scraped_info E identifier w).1 in
  scrape_dir w' = scrape_dir w /\
  files w' = files w /\
  tick w' = tick w /\
  (exists evs, log w' = log w ++ evs /\ forallb is_lookup_event evs = true) /\
  (forall identifier',
     (extract_scraped_info E identifier' w').2
     = (extract_scraped_info E identifier' w).2).
Proof.
  intros w'.
  assert (maintains untouched (extract_scraped_info E identifier)) as Hu.
  { pose proof os_listdir_untouched. pose proof read_metadata_untouched.
    pose proof read_content_files_untouched.
    unfold extract_scraped_info, extract_scraped_info_result. maintains_auto. }
  assert (maintains (extends_log is_lookup_event)
            (extract_scraped_info E identifier)) as Hl.
  { pose proof os_listdir_lookup_log. pose proof read_metadata_lookup_log.
    pose proof read_content_files_lookup_log.
    unfold extract_scraped_info, extract_scraped_info_result. maintains_auto. }
  destruct (Hu w) as (Hd & Hf & Ht). fold w' in Hd, Hf, Ht.
  split_and!; try done.
  - apply Hl.
  - intros identifier'. rewrite !extract_scraped_info_render.
    by destruct (reads_disk_only_lookup identifier' w' w) as [_ ->].
Qed.

(** ** Content files and the metadata file *)

(** X6: no provider name and no format make a content file of the
    metadata file: the path that a scrape writes a format to ends in
    [.txt] and is never the path of [scraped_metadata.json], so a write of
    a content file leaves the metadata file alone. *)
Theorem content_path_never_metadata_file provider_name fmt :
  os_path_join scrape_path (content_filename provider_name fmt) <> metadata_file /\
  last_char (os_path_join scrape_path (content_filename provider_name fmt))
    = Some "t"%char /\
  metadata_file = "scraped_content/scraped_metadata.json"%string.
Proof.
  assert (last_char (os_path_join scrape_path (content_filename provider_name fmt))
          = Some "t"%char) as Hlast.
  { rewrite os_path_join_scrape_path.
    assert (last_char (content_filename provider_name fmt) = Some "t"%char) as H.
    { unfold content_filename.
      rewrite last_char_app by done.
      rewrite last_char_app by (by destruct fmt).
      by rewrite last_char_app. }
    destruct (starts_with_slash _); [done|].
    rewrite last_char_app; [done|].
    unfold content_filename. by destruct provider_name. }
  split_and!; [|done|done].
  intros Heq. rewrite Heq in Hlast. vm_compute in Hlast. discriminate.
Qed.

(** ** The order of the store *)

Lemma filter_not_elem_of_app (l1 : list string) p (l : list string) :
  p ∉ l ->
  filter (fun q => q ∉ l1 ++ [p]) l = filter (fun q => q ∉ l1) l.
Proof.
  intros Hp. induction l as [|q l IH]; [done|].
  apply not_elem_of_cons in Hp as [Hne Hp].
  rewrite !filter_cons, IH by done.
  destruct (decide (q ∉ l1 ++ [p])) as [H1|H1], (decide (q ∉ l1)) as [H2|H2];
    try done.
  - exfalso. apply H2. intros Hin. apply H1. apply elem_of_app. by left.
  - exfalso. apply H1. intros [Hin|Hin]%elem_of_app; [done|].
    apply list_elem_of_singleton in Hin. by subst.
Qed.

Lemma scrape_loop_keys E k formats websites d acc w w' st' :
  NoDup websites.*1 ->
  scrape_loop E k formats websites (PyDict d, acc) w = (w', Ok st') ->
  exists d', st'.1 = PyDict d' /\
    dict_keys d' = dict_keys d ++ filter (fun p => p ∉ dict_keys d) websites.*1.
Proof.
  revert d acc w. induction websites as [|[p0 u0] websites IH];
    intros d acc w Hnd H.
  - simpl in H. apply retM_ok in H as [_ ->]. exists d. simpl.
    by rewrite app_nil_r.
  - simpl in H. apply bindM_ok in H as (st1 & w1 & Hp & H).
    apply scrape_provider_ok in Hp as (r0 & _ & ->).
    apply NoDup_cons in Hnd as [Hp0 Hnd].
    apply IH in H as (d' & Hst & Hkeys); [|done].
    exists d'. split; [done|]. rewrite Hkeys, dict_keys_set.
    cbn [fmap list_fmap fst]. rewrite filter_cons.
    destruct (decide (p0 ∈ dict_keys d)) as [Hin|Hnin].
    + by rewrite decide_False by (intros Hn; by apply Hn).
    + rewrite decide_True by done.
      rewrite filter_not_elem_of_app by done. by rewrite <- app_assoc.
Qed.

(** X7: a run of the scrape tool that returns keeps the iteration order of
    the store: every provider that had a record keeps its position, also
    when its record is replaced, and the providers that are new are
    appended in the order of the batch.  The order is what the lookup's
    first match goes by. *)
Theorem scrape_keeps_store_order E websites formats api_key w w' successes d :
  NoDup websites.*1 ->
  (stored w = StoreAbsent /\ d = []) \/ stored w = StoreParsed (PyDict d) ->
  scrape_websites E websites formats api_key w = (w', Ok successes) ->
  exists d',
    stored w' = StoreParsed (PyDict d') /\
    dict_keys d' = dict_keys d ++ filter (fun p => p ∉ dict_keys d) websites.*1.
Proof.
  intros Hnd Hstored H.
  apply scrape_websites_ok in H
    as (k & w0 & w1 & w2 & w3 & v0 & v & Hk & _ & -> & Hload & Hloop & Hsave).
  apply resolve_api_key_stored in Hk as [Hdir0 _].
  apply load_metadata_ok in Hload as (_ & _ & Hv0).
  assert (v0 = PyDict d) as ->.
  { assert (stored (os_makedirs scrape_path w0).1 = stored w) as Hs.
    { unfold stored. simpl. rewrite Hdir0. by destruct (scrape_dir w). }
    rewrite Hs in Hv0. destruct Hstored as [[Hw ->]|Hw], Hv0 as [[Hv ?]|Hv];
      congruence. }
  apply scrape_loop_keys in Hloop as (d' & Hst & Hkeys); [|done].
  simpl in Hst. subst v.
  apply save_metadata_ok in Hsave as (Hdir' & _ & _).
  exists d'. split; [|done]. unfold stored. by rewrite Hdir'.
Qed.

(** ** Scrape, then look up *)

Lemma lookup_returns_on_well_formed E identifier w v :
  scrape_dir w = DirPresent (StoreParsed v) ->
  store_well_formed v = true ->
  exists text, (extract_scraped_info E identifier w).2 = Ok text.
Proof.
  intros Hdir Hwf. rewrite extract_scraped_info_render.
  destruct v as [| | | | |items]; try done. simpl in Hwf.
  assert (forallb (fun kv => is_dict kv.2) items = true) as Hdicts.
  { eapply forallb_impl; [|exact Hwf]. intros [k [| | | | |r]]; done. }
  pose proof (find_matching_entry_first_match identifier items Hdicts) as Hfind.
  destruct (first_match identifier items) as [entry|] eqn:Hfirst.
  - apply first_match_elem_of in Hfirst as (p & Hin).
    assert (record_well_formed entry = true) as Hentry.
    { rewrite forallb_forall in Hwf. apply (Hwf (p, entry)).
      by apply list_elem_of_In. }
    rewrite (lookup_match _ _ _ _ Hdir Hfind). unfold bindM, liftM.
    destruct entry as [| | | | |r]; try done. simpl in *.
    destruct (default PyNone (dict_get "content_files"%string r))
      as [| | | | |cf] eqn:Hcf; simpl in *;
      try (apply negb_true_iff in Hentry; rewrite Hentry; simpl; by eauto).
    + eauto.
    + destruct cf as [|kv cf]; [simpl; eauto|]. cbn [py_truthy].
      destruct (read_content_files_total (kv :: cf) [] (after_listdir w) Hentry)
        as (w' & r' & Hrun & _).
      rewrite Hrun. destruct r'; simpl; eauto.
  - rewrite (lookup_no_match _ _ _ Hdir Hfind). simpl. eauto.
Qed.

(** X8: after a run of the scrape tool that returned, started on no
    metadata file or on a well-formed one, the lookup raises for no
    identifier: the store-not-found and corrupt-store errors are gone and
    every lookup returns a text. *)
Theorem lookup_after_scrape_returns E websites formats api_key w w' successes :
  stored w = StoreAbsent \/
    (exists v, stored w = StoreParsed v /\ store_well_formed v = true) ->
  scrape_websites E websites formats api_key w = (w', Ok successes) ->
  forall identifier,
    exists text, (extract_scraped_info E identifier w').2 = Ok text.
Proof.
  intros Hstored H identifier.
  apply scrape_websites_ok in H
    as (k & w0 & w1 & w2 & w3 & v0 & v & Hk & _ & -> & Hload & Hloop & Hsave).
  apply resolve_api_key_stored in Hk as [Hdir0 _].
  apply load_metadata_ok in Hload as (_ & _ & Hv0).
  assert (stored (os_makedirs scrape_path w0).1 = stored w) as Hs.
  { unfold stored. simpl. rewrite Hdir0. by destruct (scrape_dir w). }
  rewrite Hs in Hv0.
  assert (store_well_formed v0 = true) as Hwf0.
  { destruct Hstored as [Hw|(v1 & Hw & Hwf)], Hv0 as [[Hv ->]|Hv];
      try congruence; try done. }
  destruct v0 as [| | | | |d]; try done.
  apply scrape_loop_well_formed in Hloop; [|done].
  apply save_metadata_ok in Hsave as (Hdir' & _ & _).
  by apply (lookup_returns_on_well_formed E identifier w' v).
Qed.

(** ** Failed attempts *)

Section FailedAttempts.
Context (E : Env).

(** The handler of a provider whose URL [urlparse] accepts. *)
Lemma scrape_provider_except_run formats provider_name url d acc e w domain :
  urlparse_netloc E url = Ok domain ->
  scrape_provider_except E formats provider_name url (PyDict d, acc) e w
  = (mkWorld (scrape_dir w) (files w) (S (tick w)) (log w),
     Ok (PyDict (dict_set provider_name
                   (failure_record provider_name url domain
                      (utcnow_isoformat E (tick w)) formats (exn_msg e)) d),
         acc)).
Proof.
  intros Hdom.
  unfold scrape_provider_except, utcnow, bindM, liftM, next_tick, retM.
  by rewrite Hdom.
Qed.

(** X9: when the collaborator raises for a provider, the exception is
    recorded: the provider gets a failure record, with the fields of a
    failure record and no others, whose error is the text of the exception
    and whose time is the reading of the clock that the handler took; the
    provider does not join the successes, and no content file is written
    or changed. *)
Theorem collaborator_exception_recorded k formats provider_name url d acc w e
    domain :
  firecrawl_scrape E (tick w) k url formats = Raise e ->
  urlparse_netloc E url = Ok domain ->
  exists r,
    scrape_provider E k formats provider_name url (PyDict d, acc) w
    = (mkWorld (scrape_dir w) (files w) (S (S (tick w)))
               (log w ++ [EvScrape k url formats]),
       Ok (PyDict (dict_set provider_name r d), acc)) /\
    failure_fields provider_name url domain (utcnow_isoformat E (S (tick w)))
      formats (exn_msg e) r.
Proof.
  intros Hscrape Hdom.
  exists (failure_record provider_name url domain
            (utcnow_isoformat E (S (tick w))) formats (exn_msg e)).
  split; [|apply failure_record_fields].
  unfold scrape_provider, try_except, scrape_provider_try.
  erewrite bindM_raise;
    [|unfold app_scrape, bindM, next_tick, emit, liftM; simpl;
      rewrite Hscrape; reflexivity].
  by rewrite (scrape_provider_except_run _ _ _ _ _ _ _ _ Hdom).
Qed.

Lemma process_scrape_result_status formats provider_name url st scrape_result
    w msg :
  status_failure E provider_name url scrape_result = Some msg ->
  exists e, exn_msg e = msg /\
    process_scrape_result E formats provider_name url st scrape_result w
    = (w, Raise e).
Proof.
  unfold status_failure, status_of, reported_error, process_scrape_result.
  unfold bindM, liftM, raiseM, mbind, exc_bind.
  destruct (py_get (PyDict scrape_result) "metadata" (PyDict [])) as [md|e0];
    [|intros ?; simplify_eq; eauto].
  destruct (py_get md "status_code" (PyInt 0)) as [sc|e0];
    [|intros ?; simplify_eq; eauto].
  destruct (py_ne_int sc 200); [|done].
  destruct (py_get (PyDict scrape_result) "data" (PyDict [])) as [data|e0];
    [|intros ?; simplify_eq; eauto].
  destruct (py_get data "metadata" (PyDict [])) as [dmd|e0];
    [|intros ?; simplify_eq; eauto].
  destruct (py_get dmd "error" (PyStr "Unknown error")) as [err|e0];
    intros ?; simplify_eq; [|by eauto].
  by eexists (Exn ValueError _).
Qed.

(** X10: a response whose status code is not 200, or is missing, fails
    the attempt: the provider gets a failure record, with the fields of a
    failure record and no others, whose error is the text
    [Scrape failed for {provider_name} at {url}], the blanks of the
    continued source line, and [with error:] followed by what the response
    reports under [data.metadata.error], or by [Unknown error] (or, when
    the response is not made of dictionaries there, the text of the
    [AttributeError]); no content file is written, whatever content the
    response carries, and the provider does not join the successes. *)
Theorem non_200_response_recorded k formats provider_name url d acc w
    scrape_result msg domain :
  firecrawl_scrape E (tick w) k url formats = Ok scrape_result ->
  status_failure E provider_name url scrape_result = Some msg ->
  urlparse_netloc E url = Ok domain ->
  exists r,
    scrape_provider E k formats provider_name url (PyDict d, acc) w
    = (mkWorld (scrape_dir w) (files w) (S (S (tick w)))
               (log w ++ [EvScrape k url formats]),
       Ok (PyDict (dict_set provider_name r d), acc)) /\
    failure_fields provider_name url domain (utcnow_isoformat E (S (tick w)))
      formats msg r.
Proof.
  intros Hscrape Hstatus Hdom.
  exists (failure_record provider_name url domain
            (utcnow_isoformat E (S (tick w))) formats msg).
  split; [|apply failure_record_fields].
  unfold scrape_provider, try_except, scrape_provider_try.
  erewrite bindM_run;
    [|unfold app_scrape, bindM, next_tick, emit, liftM; simpl;
      rewrite Hscrape; reflexivity].
  lazymatch goal with
  | |- context [process_scrape_result E ?f ?p ?u ?st ?r ?w0] =>
      destruct (process_scrape_result_status f p u st r w0 msg Hstatus)
        as (e & Hmsg & Hrun);
      rewrite Hrun
  end.
  rewrite (scrape_provider_except_run _ _ _ _ _ _ _ _ Hdom). by rewrite Hmsg.
Qed.

End FailedAttempts.

(** ** Content that is not text *)

Section NonText.
Context (E : Env).





End NonText.

(** ** Scrape one provider, then look it up *)




Lemma find_own_record provider_name r d :
  is_dict r = true ->
  only_own_record provider_name d ->
  find_matching_entry provider_name (dict_set provider_name r d) = Ok (Some r).
Proof.
  intros Hr Hd. induction Hd as [|[k' v'] d Hkv _ IH].
  - simpl. rewrite bool_decide_eq_true_2 by done. by destruct r.
  - simpl. destruct (decide (provider_name = k')) as [->|Hne].
    + simpl. rewrite bool_decide_eq_true_2 by done. by destruct r.
    + destruct Hkv as [Heq|[Hdict Hm]]; [by simplify_eq/=|].
      simpl in Hdict, Hm. destruct v' as [| | | | |dv]; try done.
      unfold entry_matches in Hm. cbn [find_matching_entry].
      rewrite bool_decide_eq_false_2 by done.
      rewrite bool_decide_eq_false_2 in Hm by done. simpl in Hm.
      apply orb_false_elim in Hm as [Hu Hdm].
      simpl. rewrite Hu. simpl. rewrite Hdm. exact IH.
Qed.



(** A run on a batch of one provider, taken apart. *)
Lemma single_scrape_ok E formats api_key provider_name url w w' successes d :
  (stored w = StoreAbsent /\ d = []) \/ stored w = StoreParsed (PyDict d) ->
  scrape_websites E [(provider_name, url)] formats api_key w = (w', Ok successes) ->
  exists k w2 w3 v,
    files w2 = files w /\
    scrape_provider E k formats provider_name url (PyDict d, []) w2
      = (w3, Ok (v, successes)) /\
    scrape_dir w' = DirPresent (StoreParsed v) /\
    files w' = files w3.
Proof.
  intros Hstored H.
  apply scrape_websites_ok in H
    as (k & w0 & w1 & w2 & w3 & v0 & v & Hk & _ & -> & Hload & Hloop & Hsave).
  apply resolve_api_key_stored in Hk as [Hdir0 Hfiles0].
  apply load_metadata_ok in Hload as (Hfiles2 & _ & Hv0).
  assert (v0 = PyDict d) as ->.
  { assert (stored (os_makedirs scrape_path w0).1 = stored w) as Hs.
    { unfold stored. simpl. rewrite Hdir0. by destruct (scrape_dir w). }
    rewrite Hs in Hv0. destruct Hstored as [[Hw ->]|Hw], Hv0 as [[Hv ?]|Hv];
      congruence. }
  simpl in Hloop. apply bindM_ok in Hloop as (st1 & w3' & Hp & Hret).
  apply retM_ok in Hret as [Hw Hst1]. subst w3 st1.
  apply save_metadata_ok in Hsave as (Hdir' & Hfiles' & _).
  exists k, w2, w3', v. split_and!; try done.
  by rewrite Hfiles2.
Qed.


(** X13: a provider whose attempt failed is not reported as unknown by
    the lookup.  After a run on one provider that returned without it, and
    with no other record answering to its name, the lookup by the
    provider's name returns the empty result object, not the not-found
    message and not an error. *)
Theorem failed_scrape_then_lookup E formats api_key provider_name url w w' d :
  (stored w = StoreAbsent /\ d = []) \/ stored w = StoreParsed (PyDict d) ->
  only_own_record provider_name d ->
  scrape_websites E [(provider_name, url)] formats api_key w = (w', Ok []) ->
  (extract_scraped_info_result provider_name w').2 = Ok (Found []) /\
  (extract_scraped_info E provider_name w').2 = Ok (json_dumps E 2 (PyDict [])).
Proof.
  intros Hstored Hown H.
  apply (single_scrape_ok _ _ _ _ _ _ _ _ _ Hstored) in H
    as (k & w2 & w3 & v & _ & Hp & Hdir' & Hfiles').
  apply scrape_provider_ok in Hp as (r & (dom & t & _ & _ & Hr) & Hst).
  assert ((extract_scraped_info_result provider_name w').2 = Ok (Found []))
    as Hresult.
  { destruct Hr as [(resp & md & title & desc & _ & _ & _ & _ & _ & Hr)
                   |(e & t' & _ & _ & Hr)].
    { rewrite (success_fields_success _ _ _ _ _ _ _ _ _ Hr) in Hst.
      simpl in Hst. by simplify_eq. }
    destruct Hr as (_ & Hs & _ & Hkeys).
    destruct r as [| | | | |rd]; try done. simpl in Hs, Hkeys.
    simpl in Hst. simplify_eq.
    erewrite lookup_match;
      [|exact Hdir'|apply find_own_record; [done|exact Hown]].
    unfold bindM at 1. unfold liftM at 1. cbn [py_get].
    assert (dict_get "content_files"%string rd = None) as ->.
    { apply dict_get_None_key. rewrite Hkeys.
      by apply (bool_decide_unpack _). }
    done. }
  split; [done|]. by rewrite extract_scraped_info_render, Hresult.
Qed.

(** ** A metadata file that is not a mapping *)

Lemma scrape_provider_non_mapping E k formats provider_name url v acc w e domain :
  is_dict v = false ->
  urlparse_netloc E url = Ok domain ->
  py_setitem v provider_name PyNone = Raise e ->
  exists w', scrape_provider E k formats provider_name url (v, acc) w = (w', Raise e).
Proof.
  intros Hv Hdom Hset. unfold scrape_provider, try_except.
  destruct (scrape_provider_try E k formats provider_name url (v, acc) w)
    as [w1 [st1|e1]] eqn:Htry.
  - unfold scrape_provider_try in Htry.
    apply bindM_ok in Htry as (resp & w0 & _ & Htry).
    apply process_scrape_result_ok in Htry
      as (? & ? & ? & d & ? & ? & ? & _ & _ & _ & _ & _ & Hd & _).
    simpl in Hd. by subst v.
  - unfold scrape_provider_except, utcnow, bindM, liftM, next_tick, retM.
    rewrite Hdom. simpl.
    destruct v; simpl in *; try done; simplify_eq; eauto.
Qed.

(** X14: when the metadata file parses to something that is not a
    mapping, a batch with at least one provider fails as a whole: the
    first provider is scraped, its record cannot be stored, the
    [TypeError] of the item assignment leaves the handler and the batch,
    no further provider is scraped and the metadata file stays as it
    is. *)
Theorem non_mapping_store_fails_batch E formats k provider_name url websites
    w v e domain :
  stored w = StoreParsed v ->
  is_dict v = false ->
  firecrawl_new E k = None ->
  urlparse_netloc E url = Ok domain ->
  py_setitem v provider_name PyNone = Raise e ->
  let run :=
    scrape_websites E ((provider_name, url) :: websites) formats (Some k) w in
  run.2 = Raise e /\
  stored run.1 = stored w /\
  exists evs,
    log run.1
    = log w ++ [EvMakedirs scrape_path; EvLoadStore metadata_file;
                EvScrape k url formats] ++ evs /\
    forallb is_write_file evs = true.
Proof.
  intros Hstored Hv Hnew Hdom Hset run.
  set (w1 := (os_makedirs scrape_path w).1).
  assert (stored w1 = StoreParsed v) as Hs1.
  { rewrite <- Hstored. apply os_makedirs_stored. }
  set (w2 := (emit (EvLoadStore metadata_file) w1).1).
  assert (load_metadata w1 = (w2, Ok v)) as Hload.
  { unfold load_metadata. by rewrite Hs1. }
  destruct (scrape_provider_non_mapping E k formats provider_name url v [] w2
              e domain Hv Hdom Hset) as (w3 & Hp).
  assert (run = (w3, Raise e)) as Hrun.
  { unfold run, scrape_websites.
    rewrite (bindM_run (resolve_api_key E (Some k)) _ w w k eq_refl).
    unfold FirecrawlApp. rewrite Hnew.
    rewrite (bindM_run (retM k) _ w w k eq_refl).
    rewrite (bindM_run (os_makedirs scrape_path) _ w w1 tt eq_refl).
    rewrite (bindM_run _ _ _ _ _ Hload).
    erewrite bindM_raise; [reflexivity|].
    simpl. by rewrite (bindM_raise _ _ _ _ _ Hp). }
  rewrite Hrun. simpl. split_and!; [done| |].
  - pose proof (scrape_provider_stored E k formats provider_name url (v, []) w2)
      as Hst. rewrite Hp in Hst. unfold keeps_stored in Hst. simpl in Hst.
    rewrite Hst. etrans; [|exact (os_makedirs_stored scrape_path w)].
    reflexivity.
  - destruct (scrape_provider_trace E k formats provider_name url (v, []) w2)
      as (evs & Hlog & Hevs).
    rewrite Hp in Hlog. simpl in Hlog. exists evs. split; [|done].
    rewrite Hlog. unfold w2, w1. simpl. by rewrite <- !app_assoc.
Qed.

(** ** The further scenarios *)

(** The batch, on a metadata file that is not JSON. *)
Lemma unreadable_store_stops_scrape_witness :
  scrape_websites (env None) batch default_formats (Some key) unreadable
  = (mkWorld (scrape_dir unreadable) (files unreadable) (tick unreadable)
             (log unreadable
                ++ [EvMakedirs scrape_path; EvLoadStore metadata_file]),
     Raise not_json).
Proof.
  apply (unreadable_store_stops_scrape (env None) batch default_formats key
           unreadable not_json); reflexivity.
Defined.

(** The empty batch, in a directory that does not exist yet. *)
Lemma empty_batch_writes_store_witness :
  (scrape_websites (env None) [] default_formats (Some key) fresh).2 = Ok [] /\
  scrape_dir (scrape_websites (env None) [] default_formats (Some key) fresh).1
    = DirPresent (StoreParsed (match stored fresh with
                               | StoreParsed v => v
                               | _ => PyDict []
                               end)) /\
  files (scrape_websites (env None) [] default_formats (Some key) fresh).1
    = files fresh /\
  filter is_scrape
    (log (scrape_websites (env None) [] default_formats (Some key) fresh).1)
    = filter is_scrape (log fresh) /\
  (stored fresh = StoreAbsent ->
   forall identifier,
     (extract_scraped_info_result identifier
        (scrape_websites (env None) [] default_formats (Some key) fresh).1).2
     = Ok (NotFound identifier)).
Proof.
  apply (empty_batch_writes_store (env None) default_formats key fresh).
  - reflexivity.
  - reflexivity.
  - intros e. discriminate.
Defined.

(** The batch, on the store that holds acme's earlier attempt: acme stays
    first, the two new providers follow. *)
Lemma scrape_keeps_store_order_witness :
  exists d',
    stored (scrape_websites (env None) batch default_formats (Some key) earlier).1
      = StoreParsed (PyDict d') /\
    dict_keys d'
    = dict_keys (store_of earlier)
        ++ filter (fun p => p ∉ dict_keys (store_of earlier)) batch.*1.
Proof.
  apply (scrape_keeps_store_order (env None) batch default_formats (Some key)
           earlier _ ["acme"; "globex"]%string (store_of earlier)).
  - by apply (bool_decide_unpack _).
  - right. reflexivity.
  - vm_compute. reflexivity.
Defined.

(** A lookup of a provider that was never scraped, after the batch was
    scraped into an empty directory. *)
Lemma lookup_after_scrape_returns_witness :
  exists text,
    (extract_scraped_info (env None) "initech" after_batch).2 = Ok text.
Proof.
  apply (lookup_after_scrape_returns (env None) batch default_formats
           (Some key) fresh after_batch ["acme"; "globex"]%string).
  - left. reflexivity.
  - vm_compute. reflexivity.
Defined.

(** The provider for whose URL Firecrawl raises. *)
Lemma collaborator_exception_recorded_witness :
  (exists r,
    scrape_provider (env None) key default_formats "nowhere" nowhere_url
      (PyDict [], []) fresh
    = (mkWorld (scrape_dir fresh) (files fresh) (S (S (tick fresh)))
               (log fresh ++ [EvScrape key nowhere_url default_formats]),
       Ok (PyDict (dict_set "nowhere"%string r []), [])) /\
    failure_fields "nowhere" nowhere_url "nowhere.example.com"
      (utcnow_isoformat (env None) (S (tick fresh))) default_formats
      (exn_msg (Exn (OtherError "BadRequestError") "Bad Request: invalid URL"))
      r) /\
  scrape_provider (env None) key default_formats "nowhere" nowhere_url
    (PyDict [], []) fresh
  = (mkWorld DirAbsent ∅ 2
       [EvScrape key "http://nowhere.example.com/x" ["markdown"; "html"]]%string,
     Ok (PyDict [ ("nowhere"%string,
                   PyDict [ ("provider_name", PyStr "nowhere");
                            ("url", PyStr "http://nowhere.example.com/x");
                            ("domain", PyStr "nowhere.example.com");
                            ("scraped_at", PyStr "2025-10-23T00:44:59.000001");
                            ("formats", PyList [PyStr "markdown"; PyStr "html"]);
                            ("success", PyBool false);
                            ("error", PyStr "Bad Request: invalid URL") ]%string) ],
         [])).
Proof.
  split.
  - apply (collaborator_exception_recorded (env None) key default_formats
             "nowhere" nowhere_url [] [] fresh
             (Exn (OtherError "BadRequestError") "Bad Request: invalid URL")
             "nowhere.example.com").
    + reflexivity.
    + vm_compute. reflexivity.
  - vm_compute. reflexivity.
Defined.

(** The provider whose page answers with status 503. *)
Lemma non_200_response_recorded_witness :
  (exists r,
    scrape_provider (env None) key default_formats "initech" initech_url
      (PyDict [], []) fresh
    = (mkWorld (scrape_dir fresh) (files fresh) (S (S (tick fresh)))
               (log fresh ++ [EvScrape key initech_url default_formats]),
       Ok (PyDict (dict_set "initech"%string r []), [])) /\
    failure_fields "initech" initech_url "initech.example.com"
      (utcnow_isoformat (env None) (S (tick fresh))) default_formats
      "Scrape failed for initech at https://initech.example.com/                                   with error: Unknown error"
      r) /\
  scrape_provider (env None) key default_formats "initech" initech_url
    (PyDict [], []) fresh
  = (mkWorld DirAbsent ∅ 2
       [EvScrape key "https://initech.example.com/" ["markdown"; "html"]]%string,
     Ok (PyDict [ ("initech"%string,
                   PyDict [ ("provider_name", PyStr "initech");
                            ("url", PyStr "https://initech.example.com/");
                            ("domain", PyStr "initech.example.com");
                            ("scraped_at", PyStr "2025-10-23T00:44:59.000001");
                            ("formats", PyList [PyStr "markdown"; PyStr "html"]);
                            ("success", PyBool false);
                            ("error",
                             PyStr "Scrape failed for initech at https://initech.example.com/                                   with error: Unknown error") ]%string) ],
         [])).
Proof.
  split.
  - apply (non_200_response_recorded (env None) key default_formats
             "initech" initech_url [] [] fresh (page 503 "" "" "")).
    + reflexivity.
    + vm_compute. reflexivity.
    + vm_compute. reflexivity.
  - vm_compute. reflexivity.
Defined.



(** The provider for whose URL Firecrawl raises, alone. *)
Lemma failed_scrape_then_lookup_witness :
  (extract_scraped_info_result "nowhere"
     (scrape_websites (env None) [("nowhere"%string, nowhere_url)]
        default_formats (Some key) fresh).1).2
  = Ok (Found []) /\
  (extract_scraped_info (env None) "nowhere"
     (scrape_websites (env None) [("nowhere"%string, nowhere_url)]
        default_formats (Some key) fresh).1).2
  = Ok (json_dumps (env None) 2 (PyDict [])).
Proof.
  apply (failed_scrape_then_lookup (env None) default_formats (Some key)
           "nowhere" nowhere_url fresh _ []).
  - left. split; reflexivity.
  - constructor.
  - vm_compute. reflexivity.
Defined.

(** The batch, on a metadata file that holds a JSON array. *)
Lemma non_mapping_store_fails_batch_witness :
  (scrape_websites (env None) batch default_formats (Some key) array_store).2
  = Raise (Exn TypeError "list indices must be integers or slices, not str") /\
  stored (scrape_websites (env None) batch default_formats (Some key)
            array_store).1
  = stored array_store /\
  exists evs,
    log (scrape_websites (env None) batch default_formats (Some key)
           array_store).1
    = log array_store
        ++ [EvMakedirs scrape_path; EvLoadStore metadata_file;
            EvScrape key acme_url default_formats] ++ evs /\
    forallb is_write_file evs = true.
Proof.
  apply (non_mapping_store_fails_batch (env None) default_formats key
           "acme" acme_url (tail batch) array_store (PyList [])
           (Exn TypeError "list indices must be integers or slices, not str")
           "acme.example.com").
  - reflexivity.
  - reflexivity.
  - reflexivity.
  - vm_compute. reflexivity.
  - reflexivity.
Defined.
